(** * Fréchet Inception Distance: a shallow embedding of [my_calculate_fid.py]

    The development follows the three functions of the source file:
    [calculate_frechet_distance], [calculate_activation_statistics] and
    [calculate_fid].

    - Scalars are IEEE-754 binary64 numbers ([PrimFloat.float]); a single
      precision entry of a torch tensor is the binary64 number of the same
      value.  The elementwise operations of numpy on binary64 arrays and the
      arithmetic on numpy scalars are the IEEE operations.
    - What numpy, BLAS and torch compute in an order or in a precision of
      their own is taken as given, not modelled: the inner product and the
      matrix product of [dot], the sum behind [np.trace], the means of
      [mean(axis=1)], the entries of [np.cov] and the product of a tensor
      entry by a Python float.  These are the fields of [Numerics]; the
      program is a function of them.  [Ref] gives one instance, which reduces
      from left to right.
    - A numpy array is a shape together with its row-major data; the ranks
      that appear in the program are 0, 1 and 2, and arrays of higher rank
      are not represented.
    - A torch tensor is a shape (any rank) together with its row-major data.
    - Python exceptions are values of [exn]; a computation is a function of
      the ambient world (the global random generator and the trace of
      observable events) that returns a result and the world it leaves.
    - [scipy.linalg.sqrtm], [torch.randn] and [my_utils.calc_z_shapes] are
      not part of the source file: they are variables of the section.
      [scipy.linalg.sqrtm] either returns an array or raises [ValueError],
      as it does on an argument that holds an infinity or a NaN. *)

From Stdlib Require Import String ZArith Lia Bool Arith PeanoNat List.
From Stdlib Require Import Floats Uint63.
Import ListNotations.

Set Implicit Arguments.

(** ** Scalars *)

Module F.

Definition of_nat (n : nat) : float := PrimFloat.of_uint63 (Uint63.of_nat n).

(** [np.isfinite] on one entry. *)
Definition isfinite (x : float) : bool := PrimFloat.is_finite x.

(** [np.isnan] on one entry. *)
Definition isnan (x : float) : bool := PrimFloat.is_nan x.

(** The binary step of [np.max]: a NaN operand wins. *)
Definition maximum (a b : float) : float :=
  if PrimFloat.is_nan a then a
  else if PrimFloat.is_nan b then b
  else if PrimFloat.ltb a b then b else a.

(** Left-to-right sum, for the reference numerics and the stand-ins. *)
Definition sum (l : list float) : float :=
  fold_left PrimFloat.add l PrimFloat.zero.

(** [np.isclose(x, y, rtol, atol)] on one pair of entries. *)
Definition isclose (rtol atol x y : float) : bool :=
  (PrimFloat.leb (PrimFloat.abs (PrimFloat.sub x y))
                 (PrimFloat.add atol (PrimFloat.mul rtol (PrimFloat.abs y)))
   && isfinite y)
  || PrimFloat.eqb x y.

End F.

(** ** What the libraries compute in an order of their own

    Each field is the number (or the buffer of numbers) one library call
    yields on given entries.  The order in which numpy and BLAS accumulate a
    sum, and the rounding of single precision, are theirs: no property below
    depends on them. *)

Record Numerics : Type := mkNumerics {
  (** [x.dot(y)] on two vectors of one length. *)
  vdot : list float -> list float -> float;
  (** The row-major buffer of [a.dot(b)] for an [n x k] buffer [a] and a
      [k x m] buffer [b]; the arguments are [n], [k], [m], [a] and [b]. *)
  gemm : nat -> nat -> nat -> list float -> list float -> list float;
  (** The sum [np.trace] forms of the entries of a diagonal. *)
  trace_sum : list float -> float;
  (** One entry of [a.mean(axis=1)]: the mean of the entries of one row, in
      the precision of the array. *)
  row_mean : list float -> float;
  (** The row-major buffer of the [m x m] matrix [np.cov(a, rowvar=False)]
      for an [n x m] buffer [a]; the arguments are [n], [m] and [a]. *)
  cov_values : nat -> nat -> list float -> list float;
  (** One entry of [t * c] for a tensor [t] and a Python float [c]. *)
  mul_scalar : float -> float -> float
}.

(** ** Python exceptions *)

Inductive value_error : Type :=
| ShapesNotAligned (s1 s2 : list nat)     (* [dot] on incompatible shapes *)
| CannotBroadcast (s1 s2 : list nat)      (* elementwise op on incompatible shapes *)
| NeedsTwoDims (s : list nat)             (* [trace]/[diagonal] below rank 2 *)
| EmptyReduction                          (* [max] of a zero-size array *)
| NotSizeOne (s : list nat)               (* [item] on an array of size <> 1 *)
| AxisOutOfBounds (axis ndim : nat)       (* a reduction along a missing axis *)
| NotFinite                               (* [sqrtm] on an array with infs or NaNs *)
| ImaginaryComponent (m : float).         (* raised by the program itself *)

Inductive runtime_error : Type :=
| InvalidReshape (s : list nat) (rows : nat)
| StackEmpty
| StackUnequal (s1 s2 : list nat).

Inductive exn : Type :=
| AssertionError (msg : string)
| ValueError (v : value_error)
| RuntimeError (r : runtime_error)
| IndexError.

Inductive result (A : Type) : Type :=
| Ok (a : A)
| Raise (e : exn).

Arguments Ok {A} a.
Arguments Raise {A} e.

Definition is_ok {A} (r : result A) : bool :=
  match r with Ok _ => true | Raise _ => false end.

Definition is_assertion_error {A} (r : result A) : bool :=
  match r with Raise (AssertionError _) => true | _ => false end.

(** ** numpy arrays of rank at most two

    [Arr0] is a zero-dimensional array (or a numpy scalar), [Arr1 v] a vector,
    [Arr2 n m d] an [n x m] matrix with row-major buffer [d].  The entries are
    floats ([ndarray]) or, for the complex result of a matrix square root,
    pairs of a real and an imaginary part. *)

Inductive array (T : Type) : Type :=
| Arr0 (x : T)
| Arr1 (v : list T)
| Arr2 (n m : nat) (d : list T).

Abbreviation ndarray := (array float).
Abbreviation complex := (float * float)%type.

Module np.

Definition shape {T} (a : array T) : list nat :=
  match a with
  | Arr0 _ => []
  | Arr1 v => [length v]
  | Arr2 n m _ => [n; m]
  end.

Definition data {T} (a : array T) : list T :=
  match a with
  | Arr0 x => [x]
  | Arr1 v => v
  | Arr2 _ _ d => d
  end.

Definition ndim {T} (a : array T) : nat := length (shape a).

(** Entrywise image of an array, as in [a.real], [a.imag] or [np.abs(a)]. *)
Definition amap {A B} (f : A -> B) (a : array A) : array B :=
  match a with
  | Arr0 x => Arr0 (f x)
  | Arr1 v => Arr1 (map f v)
  | Arr2 n m d => Arr2 n m (map f d)
  end.

(** The buffer holds exactly the entries the shape announces. *)
Definition wf (a : ndarray) : Prop :=
  match a with
  | Arr2 n m d => length d = n * m
  | _ => True
  end.

(** Tuple equality on shapes, as in [a.shape == b.shape]. *)
Definition shape_eqb (s1 s2 : list nat) : bool :=
  if list_eq_dec Nat.eq_dec s1 s2 then true else false.

Definition atleast_1d (a : ndarray) : ndarray :=
  match a with
  | Arr0 x => Arr1 [x]
  | _ => a
  end.

Definition atleast_2d (a : ndarray) : ndarray :=
  match a with
  | Arr0 x => Arr2 1 1 [x]
  | Arr1 v => Arr2 1 (length v) v
  | Arr2 _ _ _ => a
  end.

(** Entry [(i, j)] of a row-major buffer with [m] columns. *)
Definition get (m : nat) (d : list float) (i j : nat) : float :=
  nth (i * m + j) d PrimFloat.zero.

(** *** Broadcasting elementwise operations *)

(** Every array of rank at most two is read as a (rows, columns) grid. *)
Definition grid (a : ndarray) : nat * nat :=
  match a with
  | Arr0 _ => (1, 1)
  | Arr1 v => (1, length v)
  | Arr2 n m _ => (n, m)
  end.

Definition bdim (a b : nat) : option nat :=
  if a =? b then Some a
  else if a =? 1 then Some b
  else if b =? 1 then Some a
  else None.

(** Entry [(i, j)] of [a] stretched over a larger grid. *)
Definition bget (a : ndarray) (i j : nat) : float :=
  let '(r, c) := grid a in
  get c (data a) (if r =? 1 then 0 else i) (if c =? 1 then 0 else j).

Definition table (r c : nat) (f : nat -> nat -> float) : list float :=
  flat_map (fun i => map (f i) (seq 0 c)) (seq 0 r).

Definition pack (rank r c : nat) (d : list float) : ndarray :=
  match rank with
  | 0 => Arr0 (hd PrimFloat.zero d)
  | 1 => Arr1 d
  | _ => Arr2 r c d
  end.

Definition broadcast (op : float -> float -> float) (a b : ndarray)
  : result ndarray :=
  let '(ra, ca) := grid a in
  let '(rb, cb) := grid b in
  match bdim ra rb, bdim ca cb with
  | Some r, Some c =>
      Ok (pack (Nat.max (ndim a) (ndim b)) r c
               (table r c (fun i j => op (bget a i j) (bget b i j))))
  | _, _ => Raise (ValueError (CannotBroadcast (shape a) (shape b)))
  end.

Definition add := broadcast PrimFloat.add.
Definition sub := broadcast PrimFloat.sub.
Definition mul := broadcast PrimFloat.mul.

(** *** Products *)

(** [a.dot(b)]: the shapes decide what is computed and whether the call
    fails; the numbers are those of [lib]. *)
Definition dot (lib : Numerics) (a b : ndarray) : result ndarray :=
  match a, b with
  | Arr0 _, _ | _, Arr0 _ => mul a b
  | Arr1 v, Arr1 w =>
      if length v =? length w
      then Ok (Arr0 (vdot lib v w))
      else Raise (ValueError (ShapesNotAligned (shape a) (shape b)))
  | Arr1 v, Arr2 k m e =>
      if length v =? k
      then Ok (Arr1 (gemm lib 1 k m v e))
      else Raise (ValueError (ShapesNotAligned (shape a) (shape b)))
  | Arr2 n k d, Arr1 w =>
      if k =? length w
      then Ok (Arr1 (gemm lib n k 1 d w))
      else Raise (ValueError (ShapesNotAligned (shape a) (shape b)))
  | Arr2 n k d, Arr2 k' m e =>
      if k =? k'
      then Ok (Arr2 n m (gemm lib n k m d e))
      else Raise (ValueError (ShapesNotAligned (shape a) (shape b)))
  end.

(** *** Diagonals *)

Definition diag (n m : nat) (d : list float) : list float :=
  map (fun i => get m d i i) (seq 0 (Nat.min n m)).

(** [np.diagonal(a)]. *)
Definition diagonal (a : ndarray) : result (list float) :=
  match a with
  | Arr2 n m d => Ok (diag n m d)
  | _ => Raise (ValueError (NeedsTwoDims (shape a)))
  end.

(** [np.trace(a)]. *)
Definition trace (lib : Numerics) (a : ndarray) : result ndarray :=
  match a with
  | Arr2 n m d => Ok (Arr0 (trace_sum lib (diag n m d)))
  | _ => Raise (ValueError (NeedsTwoDims (shape a)))
  end.

(** [np.eye(n)]. *)
Definition eye (n : nat) : ndarray :=
  Arr2 n n (table n n (fun i j => if i =? j then PrimFloat.one else PrimFloat.zero)).

(** [np.abs(a)]. *)
Definition abs (a : ndarray) : ndarray := amap PrimFloat.abs a.

(** [np.max(a)]. *)
Definition max (a : ndarray) : result float :=
  match data a with
  | [] => Raise (ValueError EmptyReduction)
  | x :: l => Ok (fold_left F.maximum l x)
  end.

Definition rtol_default : float := 0x1.4f8b588e368f1p-17%float.   (* 1e-5 *)

(** [np.allclose(v, 0, atol=atol)], with numpy's default [rtol]. *)
Definition allclose_zero (atol : float) (v : list float) : bool :=
  forallb (fun x => F.isclose rtol_default atol x PrimFloat.zero) v.

(** [a.mean(axis=1)]: one entry per row, the mean of that row. *)
Definition mean_axis1 (lib : Numerics) (a : ndarray) : result ndarray :=
  match a with
  | Arr2 n m d =>
      Ok (Arr1 (map (fun i => row_mean lib (map (get m d i) (seq 0 m))) (seq 0 n)))
  | _ => Raise (ValueError (AxisOutOfBounds 1 (ndim a)))
  end.

(** [np.cov(a, rowvar=False)]: on a matrix the columns are the variables
    and the rows the observations; the result is squeezed, so one variable
    gives a zero-dimensional array.  A vector is one variable. *)
Definition cov_rowvar_false (lib : Numerics) (a : ndarray) : ndarray :=
  match a with
  | Arr0 x => Arr0 (hd PrimFloat.zero (cov_values lib 1 1 [x]))
  | Arr1 v => Arr0 (hd PrimFloat.zero (cov_values lib (length v) 1 v))
  | Arr2 n m d =>
      if m =? 0 then Arr2 0 0 []
      else if m =? 1 then Arr0 (hd PrimFloat.zero (cov_values lib n m d))
      else Arr2 m m (cov_values lib n m d)
  end.

(** [a.item()]. *)
Definition item (a : ndarray) : result float :=
  match data a with
  | [x] => Ok x
  | _ => Raise (ValueError (NotSizeOne (shape a)))
  end.

End np.

(** ** What [scipy.linalg.sqrtm] returns: a real or a complex array *)

Inductive carray : Type :=
| RealArr (a : ndarray)
| ComplexArr (c : array complex).

Module cnp.

(** [c.real] and [c.imag] of a complex array. *)
Definition real_part (c : array complex) : ndarray := np.amap fst c.
Definition imag_part (c : array complex) : ndarray := np.amap snd c.

(** [np.isfinite] on one complex entry. *)
Definition isfinite (z : complex) : bool :=
  F.isfinite (fst z) && F.isfinite (snd z).

(** [np.isfinite(c).all()]. *)
Definition all_finite (c : carray) : bool :=
  match c with
  | RealArr a => forallb F.isfinite (np.data a)
  | ComplexArr c => forallb isfinite (np.data c)
  end.

(** [np.iscomplexobj(c)]. *)
Definition iscomplexobj (c : carray) : bool :=
  match c with RealArr _ => false | ComplexArr _ => true end.

Definition shape (c : carray) : list nat :=
  match c with RealArr a => np.shape a | ComplexArr c => np.shape c end.

(** The real array that stands for [c] once a complex result has been
    replaced by its real part ([covmean = covmean.real]). *)
Definition real (c : carray) : ndarray :=
  match c with RealArr a => a | ComplexArr c => real_part c end.

End cnp.

(** ** torch tensors *)

Record tensor : Type := Tensor { tshape : list nat; tdata : list float }.

Module torch.

Definition numel (s : list nat) : nat := fold_right Nat.mul 1 s.

Definition wf (t : tensor) : Prop := length (tdata t) = numel (tshape t).

(** [t.reshape(rows, -1)], and [t.view(rows, -1)] on a contiguous tensor:
    the missing dimension is inferred, which needs [rows] to be positive
    and to divide the number of entries. *)
Definition reshape_rows (rows : nat) (t : tensor) : result tensor :=
  if (rows =? 0) || negb (numel (tshape t) mod rows =? 0)
  then Raise (RuntimeError (InvalidReshape (tshape t) rows))
  else Ok (Tensor [rows; numel (tshape t) / rows] (tdata t)).

Definition shape_eqb (s1 s2 : list nat) : bool :=
  if list_eq_dec Nat.eq_dec s1 s2 then true else false.

(** The first tensor of [l] whose shape differs from [s]. *)
Definition first_unequal (s : list nat) (l : list tensor) : option tensor :=
  find (fun t => negb (shape_eqb (tshape t) s)) l.

(** [torch.stack(l)]. *)
Definition stack (l : list tensor) : result tensor :=
  match l with
  | [] => Raise (RuntimeError StackEmpty)
  | t :: rest =>
      match first_unequal (tshape t) rest with
      | Some u => Raise (RuntimeError (StackUnequal (tshape t) (tshape u)))
      | None => Ok (Tensor (length l :: tshape t) (concat (map tdata l)))
      end
  end.

(** [t.detach().cpu().view(rows, -1).numpy()]. *)
Definition view_rows_numpy (rows : nat) (t : tensor) : result ndarray :=
  match reshape_rows rows t with
  | Ok t' => Ok (Arr2 rows (numel (tshape t) / rows) (tdata t'))
  | Raise e => Raise e
  end.

(** [t * c] for a Python float [c]. *)
Definition scale (lib : Numerics) (t : tensor) (c : float) : tensor :=
  Tensor (tshape t) (map (fun x => mul_scalar lib x c) (tdata t)).

(** [torch.sum(torch.isnan(t.view(-1))).item()]. *)
Definition count_nan (t : tensor) : nat :=
  length (filter F.isnan (tdata t)).

End torch.

(** The attributes of [config] that the program reads. *)
Record Config : Type := mkConfig {
  batch : nat;
  img_size : nat;
  n_flow : nat;
  n_block : nat;
  temp : float
}.

(** ** Observable events and the ambient world *)

Inductive message : Type :=
| MsgSingular (eps : float)
    (* 'fid calculation produces singular product; adding %s to diagonal of
       cov estimates' % eps *)
| MsgNaN (size : list nat) (count : nat).
    (* print(pics.size(), nan_values) *)

Inductive event : Type :=
| EvPrint (m : message)            (* a line on standard output *)
| EvSqrtm (a : ndarray)            (* a call of [scipy.linalg.sqrtm] *)
| EvRandn (s : list nat)           (* a call of [torch.randn] *)
| EvInception (x : tensor)         (* a call of the classifier *)
| EvReverse (zs : list tensor).    (* a call of [model.reverse] *)

Definition eps_default : float := 0x1.0c6f7a0b5ed8dp-20%float.   (* 1e-6 *)
Definition imag_atol : float := 0x1.0624dd2f1a9fcp-10%float.     (* 1e-3 *)

(** Kinds of events, and how many events of a kind a trace holds. *)
Definition is_sqrtm_call (e : event) : bool :=
  match e with EvSqrtm _ => true | _ => false end.

Definition is_randn_call (e : event) : bool :=
  match e with EvRandn _ => true | _ => false end.

Definition is_inception_call (e : event) : bool :=
  match e with EvInception _ => true | _ => false end.

Definition is_reverse_call (e : event) : bool :=
  match e with EvReverse _ => true | _ => false end.

Definition is_print (e : event) : bool :=
  match e with EvPrint _ => true | _ => false end.

Definition count (p : event -> bool) (l : list event) : nat :=
  length (filter p l).

(** The exceptions torch and the indexing of the classifier's result raise. *)
Definition is_torch_error (e : exn) : bool :=
  match e with
  | IndexError | RuntimeError _ => true
  | _ => false
  end.

(** What a call of [scipy.linalg.sqrtm] comes to: the array it returns, or
    the [ValueError] it raises. *)
Inductive sqrtm_outcome : Type :=
| SqrtmReturns (c : carray)
| SqrtmRaises (v : value_error).

Definition sqrtm_result (o : sqrtm_outcome) : result carray :=
  match o with
  | SqrtmReturns c => Ok c
  | SqrtmRaises v => Raise (ValueError v)
  end.

Section Program.

(** The state of torch's global random generator. *)
Variable G : Type.

(** The numbers of numpy, BLAS and torch. *)
Variable lib : Numerics.

(** [torch.randn]. *)
Variable randn : list nat -> G -> tensor * G.

(** [scipy.linalg.sqrtm]: the square root a call yields (with [disp=False],
    the first component of what it returns), or the error it raises. *)
Variable sqrtm : ndarray -> sqrtm_outcome.

(** [my_utils.calc_z_shapes]. *)
Variable calc_z_shapes : nat -> nat -> nat -> nat -> list (list nat).

Record World : Type := mkWorld { rng : G; trace : list event }.

Definition M (A : Type) : Type := World -> result A * World.

Definition ret {A} (a : A) : M A := fun w => (Ok a, w).

Definition raise {A} (e : exn) : M A := fun w => (Raise e, w).

Definition bind {A B} (c : M A) (k : A -> M B) : M B :=
  fun w =>
    match c w with
    | (Ok a, w') => k a w'
    | (Raise e, w') => (Raise e, w')
    end.

Definition lift {A} (r : result A) : M A := fun w => (r, w).

(** The world after the events [evs]. *)
Definition after (w : World) (evs : list event) : World :=
  mkWorld (rng w) (trace w ++ evs).

(** The world after a run that causes the events [fst (run g)] and leaves
    the generator in state [snd (run g)], [g] being the state it finds. *)
Definition advance (w : World) (run : G -> list event * G) : World :=
  mkWorld (snd (run (rng w))) (trace w ++ fst (run (rng w))).

(** A computation that leaves the world as it found it. *)
Definition silent {A} (c : M A) : Prop := forall w, snd (c w) = w.

(** A computation whose result and events do not depend on the world it
    starts in, and which leaves the random generator untouched. *)
Definition oblivious {A} (c : M A) : Prop :=
  exists r evs, forall w, c w = (r, after w evs).

(** A computation whose exceptions all satisfy [p]. *)
Definition raises_only (p : exn -> bool) {A} (c : M A) : Prop :=
  forall w, match fst (c w) with Ok _ => True | Raise e => p e = true end.


(** A computation that never ends in an [AssertionError]. *)
Definition never_asserts {A} (c : M A) : Prop :=
  forall w, is_assertion_error (fst (c w)) = false.

Definition emit (e : event) : M unit :=
  fun w => (Ok tt, mkWorld (rng w) (trace w ++ [e])).

Definition print (m : message) : M unit := emit (EvPrint m).

Definition assert_ (b : bool) (msg : string) : M unit :=
  if b then ret tt else raise (AssertionError msg).

Definition call_sqrtm (a : ndarray) : M carray :=
  bind (emit (EvSqrtm a)) (fun _ => lift (sqrtm_result (sqrtm a))).

Notation "x <- c ;; k" := (bind c (fun x => k))
  (at level 100, c at next level, right associativity).
Notation "c ;;; k" := (bind c (fun _ => k))
  (at level 100, right associativity).

(** *** [calculate_frechet_distance], lines 45-52: the square root of the
    product, recomputed on regularised covariances when it is not finite. *)
Definition sqrtm_stable (sigma1 sigma2 : ndarray) (eps : float) : M carray :=
  prod <- lift (np.dot lib sigma1 sigma2) ;;
  covmean <- call_sqrtm prod ;;
  if negb (cnp.all_finite covmean) then
    print (MsgSingular eps) ;;;
    offset <- lift (np.mul (np.eye (hd 0 (np.shape sigma1))) (Arr0 eps)) ;;
    s1 <- lift (np.add sigma1 offset) ;;
    s2 <- lift (np.add sigma2 offset) ;;
    prod' <- lift (np.dot lib s1 s2) ;;
    call_sqrtm prod'
  else ret covmean.

(** *** [calculate_frechet_distance], lines 54-59: a complex square root is
    rejected when the imaginary part of its diagonal is not close to zero,
    and replaced by its real part otherwise.  (The diagonal of the imaginary
    part is the imaginary part of the diagonal.) *)
Definition discard_imaginary (covmean : carray) : M ndarray :=
  match covmean with
  | ComplexArr c =>
      dg <- lift (np.diagonal (cnp.imag_part c)) ;;
      if negb (np.allclose_zero imag_atol dg) then
        m <- lift (np.max (np.abs (cnp.imag_part c))) ;;
        raise (ValueError (ImaginaryComponent m))
      else ret (cnp.real_part c)
  | RealArr a => ret a
  end.

(** *** [calculate_frechet_distance] *)
Definition calculate_frechet_distance
           (mu1 sigma1 mu2 sigma2 : ndarray) (eps : float) : M ndarray :=
  let mu1 := np.atleast_1d mu1 in
  let mu2 := np.atleast_1d mu2 in
  let sigma1 := np.atleast_2d sigma1 in
  let sigma2 := np.atleast_2d sigma2 in
  assert_ (np.shape_eqb (np.shape mu1) (np.shape mu2))
          "Training and test mean vectors have different lengths" ;;;
  assert_ (np.shape_eqb (np.shape sigma1) (np.shape sigma2))
          "Training and test covariances have different dimensions" ;;;
  diff <- lift (np.sub mu1 mu2) ;;
  covmean <- sqrtm_stable sigma1 sigma2 eps ;;
  covmean <- discard_imaginary covmean ;;
  tr_covmean <- lift (np.trace lib covmean) ;;
  dd <- lift (np.dot lib diff diff) ;;
  tr1 <- lift (np.trace lib sigma1) ;;
  r1 <- lift (np.add dd tr1) ;;
  tr2 <- lift (np.trace lib sigma2) ;;
  r2 <- lift (np.add r1 tr2) ;;
  twice <- lift (np.mul (Arr0 PrimFloat.two) tr_covmean) ;;
  lift (np.sub r2 twice).

(** *** [calculate_activation_statistics] *)

(** A Python [for] loop whose body updates the variables [s]. *)
Fixpoint for_each {A S} (l : list A) (body : A -> S -> M S) (s : S) : M S :=
  match l with
  | [] => ret s
  | a :: l' => s' <- body a s ;; for_each l' body s'
  end.

Definition call_randn (s : list nat) : M tensor :=
  fun w => let '(t, g) := randn s (rng w) in
           (Ok t, mkWorld g (trace w ++ [EvRandn s])).

(** [inception(x)[0]]: the classifier returns a sequence of tensors. *)
Definition call_inception (inception : tensor -> list tensor) (x : tensor)
  : M tensor :=
  emit (EvInception x) ;;;
  match inception x with
  | [] => raise IndexError
  | f :: _ => ret f
  end.

Definition call_reverse (reverse : list tensor -> tensor) (zs : list tensor)
  : M tensor :=
  emit (EvReverse zs) ;;; ret (reverse zs).

(** Lines 84-88: the latent sample of one batch. *)
Definition sample_z (config : Config) : M (list tensor) :=
  let bs := batch config in
  let z_shapes :=
    calc_z_shapes 3 (img_size config) (n_flow config) (n_block config) in
  for_each z_shapes
    (fun z z_sample =>
       z_new <- call_randn (bs :: z) ;;
       ret (z_sample ++ [torch.scale lib z_new (temp config)]))
    [].

(** Lines 78-102: the body of the loop over the dataloader; the loop
    variables are the two lists [true_vecs] and [ae_vecs]. *)
Definition batch_step (config : Config)
           (reverse : list tensor -> tensor)
           (inception : tensor -> list tensor)
           (item : tensor * tensor)
           (vecs : list tensor * list tensor)
  : M (list tensor * list tensor) :=
  let bs := batch config in
  let '(image, _) := item in
  let '(true_vecs, ae_vecs) := vecs in
  f <- call_inception inception image ;;
  tv <- lift (torch.reshape_rows bs f) ;;
  z_sample <- sample_z config ;;
  pics <- call_reverse reverse z_sample ;;
  let nan_values := torch.count_nan pics in
  (if 0 <? nan_values then print (MsgNaN (tshape pics) nan_values) else ret tt) ;;;
  g <- call_inception inception pics ;;
  av <- lift (torch.reshape_rows bs g) ;;
  ret (true_vecs ++ [tv], ae_vecs ++ [av]).

(** Lines 69-105: the loop over the dataloader and the two stacked feature
    arrays [true_data] and [ae_data]. *)
Definition stacked_features (config : Config)
           (dataloader : list (tensor * tensor))
           (reverse : list tensor -> tensor)
           (inception : tensor -> list tensor)
  : M (ndarray * ndarray) :=
  let bs := batch config in
  vecs <- for_each dataloader (batch_step config reverse inception) ([], []) ;;
  let '(true_vecs, ae_vecs) := vecs in
  t <- lift (torch.stack true_vecs) ;;
  true_data <- lift (torch.view_rows_numpy (bs * length dataloader) t) ;;
  a <- lift (torch.stack ae_vecs) ;;
  ae_data <- lift (torch.view_rows_numpy (bs * length dataloader) a) ;;
  ret (true_data, ae_data).

(** Lines 69-113. *)
Definition calculate_activation_statistics (config : Config)
           (dataloader : list (tensor * tensor))
           (reverse : list tensor -> tensor)
           (inception : tensor -> list tensor)
  : M (ndarray * ndarray * ndarray * ndarray) :=
  data <- stacked_features config dataloader reverse inception ;;
  let '(true_data, ae_data) := data in
  mu1 <- lift (np.mean_axis1 lib true_data) ;;
  mu2 <- lift (np.mean_axis1 lib ae_data) ;;
  let s1 := np.cov_rowvar_false lib true_data in
  let s2 := np.cov_rowvar_false lib ae_data in
  ret (mu1, s1, mu2, s2).

(** *** [calculate_fid] *)
Definition calculate_fid (config : Config)
           (dataloader : list (tensor * tensor))
           (reverse : list tensor -> tensor)
           (classifier : tensor -> list tensor)
  : M float :=
  stats <- calculate_activation_statistics config dataloader reverse classifier ;;
  let '(m1, s1, m2, s2) := stats in
  fid_value <- calculate_frechet_distance m1 s1 m2 s2 eps_default ;;
  lift (np.item fid_value).

(** *** Reference description of the sampling loop

    What one run of the loop over the dataloader asks of the generator, of
    the model and of the classifier, written without the loop variables. *)

(** The shapes asked of [torch.randn] for one batch. *)
Definition latent_shapes (config : Config) : list (list nat) :=
  map (cons (batch config))
      (calc_z_shapes 3 (img_size config) (n_flow config) (n_block config)).

(** Successive draws, one per shape, every draw starting from the generator
    state the previous one left; each tensor drawn keeps its shape and has
    every entry multiplied by [temp]. *)
Fixpoint draw_latents (temp : float) (shapes : list (list nat)) (g : G)
  : list tensor * G :=
  match shapes with
  | [] => ([], g)
  | s :: rest =>
      let '(t, g1) := randn s g in
      let '(ts, g2) := draw_latents temp rest g1 in
      (Tensor (tshape t) (map (fun x => mul_scalar lib x temp) (tdata t)) :: ts,
       g2)
  end.

Definition nan_report (pics : tensor) : list event :=
  if 0 <? torch.count_nan pics
  then [EvPrint (MsgNaN (tshape pics) (torch.count_nan pics))]
  else [].

(** The events of one batch and the generator state it leaves. *)
Definition batch_events (config : Config) (reverse : list tensor -> tensor)
           (image : tensor) (g : G) : list event * G :=
  let '(zs, g') := draw_latents (temp config) (latent_shapes config) g in
  let pics := reverse zs in
  ([EvInception image] ++ map EvRandn (latent_shapes config)
     ++ [EvReverse zs] ++ nan_report pics ++ [EvInception pics],
   g').

Fixpoint loader_events (config : Config) (reverse : list tensor -> tensor)
         (dataloader : list (tensor * tensor)) (g : G) : list event * G :=
  match dataloader with
  | [] => ([], g)
  | (image, _) :: rest =>
      let '(e1, g1) := batch_events config reverse image g in
      let '(e2, g2) := loader_events config reverse rest g1 in
      (e1 ++ e2, g2)
  end.

(** The pictures generated for [count] batches. *)
Fixpoint generated_pictures (config : Config) (reverse : list tensor -> tensor)
         (count : nat) (g : G) : list tensor :=
  match count with
  | 0 => []
  | S k =>
      let '(zs, g') := draw_latents (temp config) (latent_shapes config) g in
      reverse zs :: generated_pictures config reverse k g'
  end.

(** The feature buffer the classifier returns on [x]. *)
Definition features_of (inception : tensor -> list tensor) (x : tensor)
  : list float :=
  match inception x with
  | [] => []
  | f :: _ => tdata f
  end.

(** The number of entries the shape of that feature tensor announces. *)
Definition feature_entries (inception : tensor -> list tensor) (x : tensor)
  : nat :=
  match inception x with
  | [] => 0
  | f :: _ => torch.numel (tshape f)
  end.

End Program.

(** ** Reference numerics

    One instance of [Numerics]: every sum runs from left to right, starting
    from zero, in binary64.  The runs on the concrete environment use it. *)

Module Ref.

Definition vdot (v w : list float) : float :=
  F.sum (map (fun p => PrimFloat.mul (fst p) (snd p)) (combine v w)).

Definition gemm (n k m : nat) (d e : list float) : list float :=
  np.table n m (fun i j =>
    F.sum (map (fun l => PrimFloat.mul (np.get k d i l) (np.get m e l j)) (seq 0 k))).

Definition row_mean (row : list float) : float :=
  PrimFloat.div (F.sum row) (F.of_nat (length row)).

(** Centre every column on its average, multiply the centred array with its
    transpose and scale by [1 / (n - 1)] (by [1 / 0.0] when [n <= 1]). *)
Definition cov_values (n m : nat) (d : list float) : list float :=
  let avg i :=
    PrimFloat.div (F.sum (map (fun k => np.get m d k i) (seq 0 n))) (F.of_nat n) in
  let xc i k := PrimFloat.sub (np.get m d k i) (avg i) in
  let fact := if n <=? 1 then PrimFloat.zero else F.of_nat (n - 1) in
  np.table m m (fun i j =>
    PrimFloat.mul
      (F.sum (map (fun k => PrimFloat.mul (xc i k) (xc j k)) (seq 0 n)))
      (PrimFloat.div PrimFloat.one fact)).

Definition lib : Numerics :=
  mkNumerics vdot gemm F.sum row_mean cov_values PrimFloat.mul.

End Ref.

(** ** A concrete environment

    Small executable stand-ins for the objects the program receives, on which
    the functions above can be run. *)

Module Demo.

(** The generator state is a counter; a draw lists the next counter values. *)
Definition randn (s : list nat) (g : nat) : tensor * nat :=
  (Tensor s (map (fun i => F.of_nat (g + i)) (seq 0 (torch.numel s))),
   g + torch.numel s).

Definition is_diagonal (n m : nat) (d : list float) : bool :=
  forallb (fun i =>
             forallb (fun j =>
                        (i =? j) || PrimFloat.eqb (np.get m d i j) PrimFloat.zero)
                     (seq 0 m))
          (seq 0 n).

Definition has_negative (l : list float) : bool :=
  existsb (fun x => PrimFloat.ltb x PrimFloat.zero) l.

(** The principal square root of an upper triangular 2x2 buffer with
    diagonal [a], [e] and corner [b]: the corner of the root is
    [b / (sqrt a + sqrt e)], which is not finite when [a = e = 0]. *)
Definition upper_root (a b e : float) : list float :=
  [PrimFloat.sqrt a;
   PrimFloat.div b (PrimFloat.add (PrimFloat.sqrt a) (PrimFloat.sqrt e));
   PrimFloat.zero;
   PrimFloat.sqrt e].

(** A square root for the matrices of the runs below.  An argument with an
    infinite or NaN entry, or of rank other than two, is refused.  A
    diagonal matrix gets its principal root entry by entry, an imaginary
    one where the entry is negative.  An upper triangular 2x2 matrix with a
    diagonal that is not negative gets [upper_root].  Any other matrix is
    answered with NaN entries. *)
Definition sqrtm (a : ndarray) : sqrtm_outcome :=
  if negb (forallb F.isfinite (np.data a)) then SqrtmRaises NotFinite
  else
    match a with
    | Arr2 n m d =>
        if is_diagonal n m d then
          let root x :=
            if PrimFloat.ltb x PrimFloat.zero
            then (PrimFloat.zero, PrimFloat.sqrt (PrimFloat.opp x))
            else (PrimFloat.sqrt x, PrimFloat.zero) in
          if has_negative (np.diag n m d)
          then SqrtmReturns (ComplexArr (Arr2 n m (map root d)))
          else SqrtmReturns (RealArr (Arr2 n m (map PrimFloat.sqrt d)))
        else
          match n, m, d with
          | 2, 2, [x; b; c; e] =>
              if PrimFloat.eqb c PrimFloat.zero
                 && PrimFloat.leb PrimFloat.zero x
                 && PrimFloat.leb PrimFloat.zero e
              then SqrtmReturns (RealArr (Arr2 2 2 (upper_root x b e)))
              else SqrtmReturns (RealArr (Arr2 n m (map (fun _ => PrimFloat.nan) d)))
          | _, _, _ =>
              SqrtmReturns (RealArr (Arr2 n m (map (fun _ => PrimFloat.nan) d)))
          end
    | _ => SqrtmRaises (NeedsTwoDims (np.shape a))
    end.

(** One latent shape [(c, s, s)] per block, halving the side each time. *)
Fixpoint z_shapes_from (blocks c s : nat) : list (list nat) :=
  match blocks with
  | 0 => []
  | S b => [2 * c; s / 2; s / 2] :: z_shapes_from b (2 * c) (s / 2)
  end.

Definition calc_z_shapes (n_channel input_size n_flow n_block : nat)
  : list (list nat) :=
  z_shapes_from n_block n_channel input_size.

(** A generator that returns its first latent tensor as the picture. *)
Definition reverse (zs : list tensor) : tensor :=
  hd (Tensor [0] []) zs.

(** A classifier with two features per image: its first entry and the sum of
    its entries. *)
Definition inception (x : tensor) : list tensor :=
  let b := hd 0 (tshape x) in
  let per := torch.numel (tl (tshape x)) in
  [Tensor [b; 2]
          (flat_map (fun i =>
                       let px := firstn per (skipn (i * per) (tdata x)) in
                       [hd PrimFloat.zero px; F.sum px])
                    (seq 0 b))].

Definition w0 : World nat := mkWorld 0 [].

Definition config3 : Config := mkConfig 3 2 1 1 1%float.

(** The same with [temp = 2]. *)
Definition config3_temp2 : Config := mkConfig 3 2 1 1 2%float.


(** One batch of three images with two pixels each. *)
Definition loader3 : list (tensor * tensor) :=
  [(Tensor [3; 1; 1; 2] [1; 2; 3; 6; 8; 4]%float, Tensor [3] [0; 0; 0]%float)].

(** A configuration that announces batches of two images, and a dataloader
    whose single batch holds four images of two pixels each. *)
Definition config2 : Config := mkConfig 2 2 1 1 1%float.

Definition images4 : tensor :=
  Tensor [4; 1; 1; 2] [1; 2; 3; 5; 8; 13; 21; 34]%float.

Definition loader4 : list (tensor * tensor) :=
  [(images4, Tensor [4] [0; 0; 0; 0]%float)].

(** What the generator hands out first in [w0] for the shape [(3, 6, 1, 1)]. *)
Definition noise3 : tensor :=
  Tensor [3; 6; 1; 1] (map F.of_nat (seq 0 18)).

(** The images of [loader3] under other labels. *)
Definition loader3_relabelled : list (tensor * tensor) :=
  [(Tensor [3; 1; 1; 2] [1; 2; 3; 6; 8; 4]%float, Tensor [3] [7; 7; 7]%float)].

(** What the generator hands out first in [w0] for the shape [(2, 6, 1, 1)]. *)
Definition noise2 : tensor :=
  Tensor [2; 6; 1; 1] (map F.of_nat (seq 0 12)).

(** Two batches of three images each. *)
Definition images3a : tensor := Tensor [3; 1; 1; 2] [1; 2; 3; 6; 8; 4]%float.
Definition images3b : tensor := Tensor [3; 1; 1; 2] [2; 1; 5; 5; 0; 9]%float.

Definition loader6 : list (tensor * tensor) :=
  [(images3a, Tensor [3] [0; 0; 0]%float); (images3b, Tensor [3] [1; 1; 1]%float)].

(** The world after the run on [config2] and [loader4]. *)
Definition w_after4 : World nat :=
  mkWorld 12 [EvInception images4; EvRandn [2; 6; 1; 1];
              EvReverse [noise2]; EvInception noise2].

(** The world after the run on [config3] and [loader3]. *)
Definition w_after3 : World nat :=
  mkWorld 18 [EvInception (Tensor [3; 1; 1; 2] [1; 2; 3; 6; 8; 4]%float);
              EvRandn [3; 6; 1; 1]; EvReverse [noise3]; EvInception noise3].


(** What [model.reverse] is handed on [config3_temp2]: that noise, doubled. *)
Definition noise3_doubled : tensor :=
  Tensor [3; 6; 1; 1] (map (fun i => F.of_nat (2 * i)) (seq 0 18)).

End Demo.

(** ** Reference formulas

    The quantities the program is meant to compute, written directly on the
    entries. *)

Module Spec.

(** The diagonal of an [n x n] buffer. *)
Definition diagonal (n : nat) (d : list float) : list float :=
  map (fun i => nth (i * n + i) d PrimFloat.zero) (seq 0 n).

(** [v1 - v2], entry by entry. *)
Definition difference (v1 v2 : list float) : list float :=
  map (fun p => PrimFloat.sub (fst p) (snd p)) (combine v1 v2).

(** [(mu1 - mu2).(mu1 - mu2) + Tr(C1) + Tr(C2) - 2 Tr(R)], [R] being the
    square root of [C1 C2]; the inner product and the traces are those of
    [lib]. *)
Definition frechet_distance (lib : Numerics) (v1 v2 : list float) (n : nat)
           (c1 c2 root : list float) : float :=
  PrimFloat.sub
    (PrimFloat.add
       (PrimFloat.add (vdot lib (difference v1 v2) (difference v1 v2))
                      (trace_sum lib (diagonal n c1)))
       (trace_sum lib (diagonal n c2)))
    (PrimFloat.mul PrimFloat.two (trace_sum lib (diagonal n root))).

(** Entry [(i, j)] of [C + eps * I]. *)
Definition regularized_entry (eps : float) (n : nat) (d : list float)
           (i j : nat) : float :=
  PrimFloat.add (nth (i * n + j) d PrimFloat.zero)
                (PrimFloat.mul (if i =? j then PrimFloat.one else PrimFloat.zero) eps).

Definition regularized (eps : float) (n : nat) (d : list float) : list float :=
  np.table n n (regularized_entry eps n d).

(** The real parts of the entries of a square root. *)
Definition real_entries (c : carray) : list float :=
  match c with
  | RealArr a => np.data a
  | ComplexArr z => map fst (np.data z)
  end.

(** [|x| <= 1e-3]. *)
Definition negligible (x : float) : bool :=
  PrimFloat.leb (PrimFloat.abs x) 0x1.0624dd2f1a9fcp-10%float.

(** The larger of two magnitudes, a NaN being larger than anything. *)
Definition larger (a b : float) : float :=
  if PrimFloat.is_nan a then a
  else if PrimFloat.is_nan b then b
  else if PrimFloat.ltb a b then b else a.

(** The largest magnitude among the entries (zero for no entry). *)
Definition max_abs (l : list float) : float :=
  match l with
  | [] => PrimFloat.zero
  | x :: r => fold_left larger (map PrimFloat.abs r) (PrimFloat.abs x)
  end.

(** The mean over the samples: one entry per column of an [n x m] buffer. *)
Definition mean_over_samples (n m : nat) (d : list float) : list float :=
  map (fun j => PrimFloat.div
                  (F.sum (map (fun i => nth (i * m + j) d PrimFloat.zero) (seq 0 n)))
                  (F.of_nat n))
      (seq 0 m).

End Spec.

(** * Properties *)

(** ** Lists and tables *)

Lemma map_nth_seq_combine (A B : Type) (f : A -> A -> B) (z : A) (v w : list A) :
  length v = length w ->
  map (fun j => f (nth j v z) (nth j w z)) (seq 0 (length v))
  = map (fun p => f (fst p) (snd p)) (combine v w).
Proof.
  revert w; induction v as [|x v IH]; intros [|y w] Hlen; simpl in *;
    try discriminate; auto.
  f_equal. rewrite <- seq_shift, map_map. apply IH. lia.
Qed.

Lemma map_combine_diag (A B : Type) (f : A * A -> B) (l : list A) :
  map f (combine l l) = map (fun x => f (x, x)) l.
Proof. induction l; simpl; congruence. Qed.

Lemma table_row (c : nat) (f : nat -> nat -> float) :
  np.table 1 c f = map (f 0) (seq 0 c).
Proof. unfold np.table; simpl. apply app_nil_r. Qed.

Lemma length_table (r c : nat) (f : nat -> nat -> float) :
  length (np.table r c f) = r * c.
Proof.
  unfold np.table.
  assert (E : forall n a,
            length (flat_map (fun i => map (f i) (seq 0 c)) (seq a n)) = n * c).
  { induction n as [|n IH]; intros a; simpl; auto.
    rewrite length_app, length_map, length_seq, IH. reflexivity. }
  apply E.
Qed.

Lemma nth_flat_rows (c : nat) (f : nat -> nat -> float) (z : float) :
  forall r a i j, i < r -> j < c ->
  nth (i * c + j) (flat_map (fun i => map (f i) (seq 0 c)) (seq a r)) z = f (a + i) j.
Proof.
  induction r as [|r IH]; intros a i j Hi Hj; [lia|].
  simpl. destruct i as [|i].
  - simpl. rewrite app_nth1 by (rewrite length_map, length_seq; exact Hj).
    rewrite (nth_indep _ z (f a 0)) by (rewrite length_map, length_seq; exact Hj).
    rewrite map_nth, seq_nth by exact Hj. f_equal; lia.
  - rewrite app_nth2 by (rewrite length_map, length_seq; simpl; lia).
    rewrite length_map, length_seq.
    replace (S i * c + j - c) with (i * c + j) by (simpl; lia).
    rewrite IH by lia. f_equal; lia.
Qed.

Lemma nth_table (r c : nat) (f : nat -> nat -> float) (i j : nat) :
  i < r -> j < c -> np.get c (np.table r c f) i j = f i j.
Proof.
  intros Hi Hj. unfold np.get, np.table.
  rewrite nth_flat_rows by assumption. reflexivity.
Qed.

Lemma table_ext (r c : nat) (f g : nat -> nat -> float) :
  (forall i j, i < r -> j < c -> f i j = g i j) ->
  np.table r c f = np.table r c g.
Proof.
  intros H. unfold np.table.
  assert (E : forall a n, a + n <= r ->
            flat_map (fun i => map (f i) (seq 0 c)) (seq a n)
            = flat_map (fun i => map (g i) (seq 0 c)) (seq a n)).
  { intros a n; revert a; induction n as [|n IH]; intros a Ha; simpl; auto.
    f_equal; [|apply IH; lia].
    apply map_ext_in. intros j Hj. apply in_seq in Hj. apply H; lia. }
  apply E. lia.
Qed.

(** ** Elementwise operations and products *)

Lemma bdim_same (n : nat) : np.bdim n n = Some n.
Proof. unfold np.bdim. now rewrite Nat.eqb_refl. Qed.

Lemma shape_eqb_refl (s : list nat) : np.shape_eqb s s = true.
Proof. unfold np.shape_eqb. destruct (list_eq_dec Nat.eq_dec s s); congruence. Qed.

Lemma shape_eqb_eq (s1 s2 : list nat) : np.shape_eqb s1 s2 = true <-> s1 = s2.
Proof.
  unfold np.shape_eqb. destruct (list_eq_dec Nat.eq_dec s1 s2); split; congruence.
Qed.

Lemma shape_amap (A B : Type) (f : A -> B) (a : array A) :
  np.shape (np.amap f a) = np.shape a.
Proof. destruct a; simpl; try rewrite length_map; reflexivity. Qed.

Lemma broadcast_scalars (op : float -> float -> float) (x y : float) :
  np.broadcast op (Arr0 x) (Arr0 y) = Ok (Arr0 (op x y)).
Proof. reflexivity. Qed.

Lemma bget_vector (v : list float) (j : nat) :
  j < length v -> np.bget (Arr1 v) 0 j = nth j v PrimFloat.zero.
Proof.
  intros Hj. unfold np.bget, np.get; simpl.
  destruct (length v =? 1) eqn:E; [|reflexivity].
  apply Nat.eqb_eq in E. f_equal. lia.
Qed.

Lemma bget_matrix (n m : nat) (d : list float) (i j : nat) :
  i < n -> j < m -> np.bget (Arr2 n m d) i j = np.get m d i j.
Proof.
  intros Hi Hj. unfold np.bget; simpl.
  destruct (n =? 1) eqn:En; destruct (m =? 1) eqn:Em;
    try apply Nat.eqb_eq in En; try apply Nat.eqb_eq in Em;
    f_equal; lia.
Qed.

Lemma broadcast_vectors (op : float -> float -> float) (v w : list float) :
  length v = length w ->
  np.broadcast op (Arr1 v) (Arr1 w)
  = Ok (Arr1 (map (fun p => op (fst p) (snd p)) (combine v w))).
Proof.
  intros Hlen. unfold np.broadcast; simpl.
  rewrite <- Hlen, bdim_same. simpl. rewrite table_row.
  f_equal. f_equal.
  rewrite <- (map_nth_seq_combine op PrimFloat.zero v w Hlen).
  apply map_ext_in. intros j Hj. apply in_seq in Hj.
  rewrite !bget_vector by lia. reflexivity.
Qed.

Lemma broadcast_matrices (op : float -> float -> float) (n m : nat) (d e : list float) :
  np.broadcast op (Arr2 n m d) (Arr2 n m e)
  = Ok (Arr2 n m (np.table n m (fun i j => op (np.get m d i j) (np.get m e i j)))).
Proof.
  unfold np.broadcast; simpl. rewrite !bdim_same. simpl.
  f_equal. f_equal. apply table_ext. intros i j Hi Hj.
  now rewrite !bget_matrix.
Qed.

Lemma broadcast_matrix_scalar (op : float -> float -> float) (n m : nat)
      (d : list float) (x : float) :
  np.broadcast op (Arr2 n m d) (Arr0 x)
  = Ok (Arr2 n m (np.table n m (fun i j => op (np.get m d i j) x))).
Proof.
  unfold np.broadcast; simpl.
  assert (B : forall k, np.bdim k 1 = Some k).
  { intros k. unfold np.bdim. destruct (k =? 1) eqn:E; [|reflexivity].
    apply Nat.eqb_eq in E. now subst. }
  rewrite !B. simpl. f_equal. f_equal. apply table_ext. intros i j Hi Hj.
  now rewrite bget_matrix.
Qed.

Lemma dot_vector_self (lib : Numerics) (v : list float) :
  np.dot lib (Arr1 v) (Arr1 v) = Ok (Arr0 (vdot lib v v)).
Proof. simpl. now rewrite Nat.eqb_refl. Qed.

Lemma dot_square (lib : Numerics) (n : nat) (d e : list float) :
  np.dot lib (Arr2 n n d) (Arr2 n n e) = Ok (Arr2 n n (gemm lib n n n d e)).
Proof. simpl. now rewrite Nat.eqb_refl. Qed.

Lemma diag_square (n : nat) (d : list float) :
  np.diag n n d = Spec.diagonal n d.
Proof. unfold np.diag, Spec.diagonal, np.get. now rewrite Nat.min_id. Qed.

Lemma trace_square (lib : Numerics) (n : nat) (d : list float) :
  np.trace lib (Arr2 n n d) = Ok (Arr0 (trace_sum lib (Spec.diagonal n d))).
Proof. simpl. now rewrite diag_square. Qed.

(** The regularised covariance of line 52, entry by entry. *)
Lemma add_eps_identity (eps : float) (n : nat) (d : list float) :
  exists offset,
    np.mul (np.eye n) (Arr0 eps) = Ok offset /\
    np.add (Arr2 n n d) offset = Ok (Arr2 n n (Spec.regularized eps n d)).
Proof.
  eexists; split.
  - unfold np.mul, np.eye. apply broadcast_matrix_scalar.
  - unfold np.add. rewrite broadcast_matrices. f_equal. f_equal.
    unfold Spec.regularized. apply table_ext. intros i j Hi Hj.
    rewrite !nth_table by assumption. reflexivity.
Qed.

(** ** Closeness to zero

    [np.isclose(x, 0, atol=1e-3)] holds exactly when [|x| <= 1e-3]: the
    relative term vanishes, and a zero is within the bound. *)

Lemma sub_zero_r (x : float) : PrimFloat.sub x PrimFloat.zero = x.
Proof.
  apply Prim2SF_inj. rewrite FloatAxioms.sub_spec.
  change (Prim2SF PrimFloat.zero) with (S754_zero false).
  destruct (Prim2SF x) as [[|]| [|] | | s m e]; reflexivity.
Qed.

Lemma eqb_zero_abs (x : float) :
  PrimFloat.eqb x PrimFloat.zero = true -> PrimFloat.abs x = PrimFloat.zero.
Proof.
  rewrite FloatAxioms.eqb_spec. intros H. apply Prim2SF_inj.
  rewrite FloatAxioms.abs_spec.
  change (Prim2SF PrimFloat.zero) with (S754_zero false) in *.
  destruct (Prim2SF x) as [[|]| [|] | | [|] m e]; try discriminate; reflexivity.
Qed.

Lemma isclose_zero (x : float) :
  F.isclose np.rtol_default imag_atol x PrimFloat.zero = Spec.negligible x.
Proof.
  unfold F.isclose, Spec.negligible. rewrite sub_zero_r.
  change (PrimFloat.add imag_atol
            (PrimFloat.mul np.rtol_default (PrimFloat.abs PrimFloat.zero)))
    with 0x1.0624dd2f1a9fcp-10%float.
  change (F.isfinite PrimFloat.zero) with true.
  rewrite andb_true_r.
  destruct (PrimFloat.eqb x PrimFloat.zero) eqn:E.
  - rewrite (@eqb_zero_abs x E). reflexivity.
  - apply orb_false_r.
Qed.

Lemma allclose_negligible (l : list float) :
  np.allclose_zero imag_atol l = forallb Spec.negligible l.
Proof.
  unfold np.allclose_zero. induction l as [|x l IH]; [reflexivity|].
  simpl. now rewrite isclose_zero, IH.
Qed.

(** ** The Fréchet distance *)

Section Frechet.

Variable G : Type.
Variable lib : Numerics.
Variable sqrtm : ndarray -> sqrtm_outcome.

Lemma after_nil (w : World G) : after w [] = w.
Proof. destruct w; unfold after; simpl. now rewrite app_nil_r. Qed.

Lemma after_after (w : World G) (e1 e2 : list event) :
  after (after w e1) e2 = after w (e1 ++ e2).
Proof. unfold after; simpl. now rewrite app_assoc. Qed.

(** The first root is finite: one call, no message. *)
Lemma sqrtm_stable_finite (n : nat) (d1 d2 : list float) (eps : float)
      (w : World G) (root : carray) :
  let P := Arr2 n n (gemm lib n n n d1 d2) in
  sqrtm P = SqrtmReturns root ->
  cnp.all_finite root = true ->
  sqrtm_stable lib sqrtm (Arr2 n n d1) (Arr2 n n d2) eps w
  = (Ok root, after w [EvSqrtm P]).
Proof.
  intros P Hroot Hfin. unfold sqrtm_stable, call_sqrtm, bind, lift, emit, ret.
  rewrite dot_square. fold P. simpl. rewrite Hroot. simpl. rewrite Hfin.
  reflexivity.
Qed.

(** The first root is not finite: the message, and one more call on the
    regularised product, whatever comes of it. *)
Lemma sqrtm_stable_retry (n : nat) (d1 d2 : list float) (eps : float)
      (w : World G) (root : carray) :
  let P := Arr2 n n (gemm lib n n n d1 d2) in
  let P' := Arr2 n n (gemm lib n n n (Spec.regularized eps n d1)
                                     (Spec.regularized eps n d2)) in
  sqrtm P = SqrtmReturns root ->
  cnp.all_finite root = false ->
  sqrtm_stable lib sqrtm (Arr2 n n d1) (Arr2 n n d2) eps w
  = (sqrtm_result (sqrtm P'),
     after w [EvSqrtm P; EvPrint (MsgSingular eps); EvSqrtm P']).
Proof.
  intros P P' Hroot Hfin.
  destruct (add_eps_identity eps n d1) as (off & Hoff & H1).
  destruct (add_eps_identity eps n d2) as (off' & Hoff' & H2).
  assert (off' = off) by congruence; subst off'.
  unfold sqrtm_stable, call_sqrtm, print, bind, lift, emit, ret.
  rewrite dot_square. fold P. simpl. rewrite Hroot. simpl. rewrite Hfin. simpl.
  rewrite Hoff, H1, H2, dot_square. fold P'.
  unfold after. simpl. rewrite <- !app_assoc.
  destruct (sqrtm_result (sqrtm P')); reflexivity.
Qed.

(** The first call is refused: its error ends the stage. *)
Lemma sqrtm_stable_refused (n : nat) (d1 d2 : list float) (eps : float)
      (w : World G) (v : value_error) :
  let P := Arr2 n n (gemm lib n n n d1 d2) in
  sqrtm P = SqrtmRaises v ->
  sqrtm_stable lib sqrtm (Arr2 n n d1) (Arr2 n n d2) eps w
  = (Raise (ValueError v), after w [EvSqrtm P]).
Proof.
  intros P Hroot. unfold sqrtm_stable, call_sqrtm, bind, lift, emit, ret.
  rewrite dot_square. fold P. simpl. rewrite Hroot. reflexivity.
Qed.

(** What the square-root stage leaves, whatever the square root does. *)
Lemma sqrtm_stable_events (n : nat) (d1 d2 : list float) (eps : float)
      (w : World G) :
  let P := Arr2 n n (gemm lib n n n d1 d2) in
  let P' := Arr2 n n (gemm lib n n n (Spec.regularized eps n d1)
                                     (Spec.regularized eps n d2)) in
  exists r later,
    sqrtm_stable lib sqrtm (Arr2 n n d1) (Arr2 n n d2) eps w
    = (r, after w (EvSqrtm P :: later))
    /\ (later = [] \/ later = [EvPrint (MsgSingular eps); EvSqrtm P']).
Proof.
  intros P P'. destruct (sqrtm P) as [root|v] eqn:Hroot.
  - destruct (cnp.all_finite root) eqn:Hfin.
    + exists (Ok root), []. split; [|now left].
      apply (@sqrtm_stable_finite n d1 d2 eps w root Hroot Hfin).
    + eexists _, _. split; [|now right].
      apply (@sqrtm_stable_retry n d1 d2 eps w root Hroot Hfin).
  - exists (Raise (ValueError v)), []. split; [|now left].
    apply (@sqrtm_stable_refused n d1 d2 eps w v Hroot).
Qed.

(** A well-shaped square root whose imaginary diagonal, if any, passes the
    test of line 56 is replaced by its real part. *)
Lemma discard_negligible (c : carray) (k : nat) (w : World G) :
  cnp.shape c = [k; k] ->
  (forall z, c = ComplexArr z ->
     np.allclose_zero imag_atol (np.diag k k (np.data (cnp.imag_part z))) = true) ->
  discard_imaginary c w = (Ok (cnp.real c), w)
  /\ cnp.real c = Arr2 k k (Spec.real_entries c).
Proof.
  intros Hshape Himag. destruct c as [a|z]; simpl in *.
  - split; [reflexivity|]. destruct a; simpl in Hshape; try discriminate.
    injection Hshape as -> ->. reflexivity.
  - specialize (Himag z eq_refl).
    destruct z as [x|u|p q dz]; simpl in Hshape; try discriminate.
    injection Hshape as -> ->. simpl in *.
    unfold bind, lift; simpl. rewrite Himag. simpl. split; reflexivity.
Qed.

(** The test of line 56, on the entries. *)
Lemma imaginary_diagonal (k : nat) (z : array complex) :
  np.allclose_zero imag_atol (np.diag k k (np.data (cnp.imag_part z)))
  = forallb Spec.negligible (Spec.diagonal k (map snd (np.data z))).
Proof.
  rewrite allclose_negligible, diag_square.
  destruct z; reflexivity.
Qed.

(** Lines 54-64 once the square root [c] is a well-shaped matrix whose
    imaginary diagonal, if any, is negligible. *)
Lemma frechet_tail (v : list float) (n k : nat) (d1 d2 : list float)
      (c : carray) (w : World G) :
  cnp.shape c = [k; k] ->
  (forall z, c = ComplexArr z ->
     forallb Spec.negligible (Spec.diagonal k (map snd (np.data z))) = true) ->
  bind (discard_imaginary c) (fun covmean =>
  bind (lift (np.trace lib covmean)) (fun tr_covmean =>
  bind (lift (np.dot lib (Arr1 v) (Arr1 v))) (fun dd =>
  bind (lift (np.trace lib (Arr2 n n d1))) (fun tr1 =>
  bind (lift (np.add dd tr1)) (fun r1 =>
  bind (lift (np.trace lib (Arr2 n n d2))) (fun tr2 =>
  bind (lift (np.add r1 tr2)) (fun r2 =>
  bind (lift (np.mul (Arr0 PrimFloat.two) tr_covmean)) (fun twice =>
  lift (np.sub r2 twice))))))))) w
  = (Ok (Arr0 (PrimFloat.sub
           (PrimFloat.add
              (PrimFloat.add (vdot lib v v) (trace_sum lib (Spec.diagonal n d1)))
              (trace_sum lib (Spec.diagonal n d2)))
           (PrimFloat.mul PrimFloat.two
              (trace_sum lib (Spec.diagonal k (Spec.real_entries c)))))), w).
Proof.
  intros Hshape Himag.
  destruct (@discard_negligible c k w Hshape) as (Hd & Hr).
  { intros z Hz. rewrite imaginary_diagonal. now apply Himag. }
  unfold bind at 1. rewrite Hd, Hr.
  unfold bind, lift. rewrite !trace_square, dot_vector_self.
  reflexivity.
Qed.

(** The function up to the square-root stage, on mean vectors of one length
    and square covariances of one size. *)
Lemma frechet_head (mu1 sigma1 mu2 sigma2 : ndarray) (eps : float) (w : World G)
      (v1 v2 : list float) (n : nat) (d1 d2 : list float) :
  np.atleast_1d mu1 = Arr1 v1 ->
  np.atleast_1d mu2 = Arr1 v2 ->
  length v1 = length v2 ->
  np.atleast_2d sigma1 = Arr2 n n d1 ->
  np.atleast_2d sigma2 = Arr2 n n d2 ->
  calculate_frechet_distance lib sqrtm mu1 sigma1 mu2 sigma2 eps w
  = bind (sqrtm_stable lib sqrtm (Arr2 n n d1) (Arr2 n n d2) eps) (fun covmean =>
    bind (discard_imaginary covmean) (fun covmean =>
    bind (lift (np.trace lib covmean)) (fun tr_covmean =>
    bind (lift (np.dot lib (Arr1 (Spec.difference v1 v2))
                           (Arr1 (Spec.difference v1 v2)))) (fun dd =>
    bind (lift (np.trace lib (Arr2 n n d1))) (fun tr1 =>
    bind (lift (np.add dd tr1)) (fun r1 =>
    bind (lift (np.trace lib (Arr2 n n d2))) (fun tr2 =>
    bind (lift (np.add r1 tr2)) (fun r2 =>
    bind (lift (np.mul (Arr0 PrimFloat.two) tr_covmean)) (fun twice =>
    lift (np.sub r2 twice)))))))))) w.
Proof.
  intros Hm1 Hm2 Hlen Hs1 Hs2.
  unfold calculate_frechet_distance. rewrite Hm1, Hm2, Hs1, Hs2.
  simpl np.shape. rewrite Hlen, !shape_eqb_refl.
  unfold assert_. unfold bind at 1 2. unfold ret at 1 2.
  unfold np.sub at 1. rewrite (broadcast_vectors _ _ _ Hlen).
  unfold bind at 1. unfold lift at 1. reflexivity.
Qed.


Lemma negligible_of_empty_buffer (k : nat) :
  forallb Spec.negligible (Spec.diagonal k []) = true.
Proof.
  unfold Spec.diagonal. apply forallb_forall.
  intros x Hx. apply in_map_iff in Hx. destruct Hx as (i & <- & _).
  destruct (i * k + i); reflexivity.
Qed.

Lemma max_abs_of_buffer (n m : nat) (x : float) (r : list float) :
  np.max (np.abs (Arr2 n m (x :: r))) = Ok (Spec.max_abs (x :: r)).
Proof. reflexivity. Qed.

(** C3. Once the asserts have passed and the square-root stage has produced a
    complex matrix [z], the outcome is decided by the imaginary parts of the
    diagonal of [z].  When one of them is larger than [1e-3] in magnitude (or
    is not a number), the function raises [ValueError] carrying the largest
    magnitude among the imaginary parts of all entries of [z].  When all are
    within [1e-3] of zero, the real parts of the entries of [z] are used in
    the formula and a value is returned. *)
Theorem imaginary_component_check
        (mu1 sigma1 mu2 sigma2 : ndarray) (eps : float) (w w' : World G)
        (v1 v2 : list float) (n : nat) (d1 d2 : list float) (z : array complex) :
  np.atleast_1d mu1 = Arr1 v1 ->
  np.atleast_1d mu2 = Arr1 v2 ->
  length v1 = length v2 ->
  np.atleast_2d sigma1 = Arr2 n n d1 ->
  np.atleast_2d sigma2 = Arr2 n n d2 ->
  sqrtm_stable lib sqrtm (Arr2 n n d1) (Arr2 n n d2) eps w
  = (Ok (ComplexArr z), w') ->
  np.shape z = [n; n] ->
  calculate_frechet_distance lib sqrtm mu1 sigma1 mu2 sigma2 eps w
  = if forallb Spec.negligible (Spec.diagonal n (map snd (np.data z)))
    then (Ok (Arr0 (Spec.frechet_distance lib v1 v2 n d1 d2
                      (map fst (np.data z)))), w')
    else (Raise (ValueError (ImaginaryComponent
                   (Spec.max_abs (map snd (np.data z))))), w').
Proof.
  intros Hm1 Hm2 Hlen Hs1 Hs2 Hroot Hshape.
  rewrite (@frechet_head mu1 sigma1 mu2 sigma2 eps w v1 v2 n d1 d2 Hm1 Hm2 Hlen Hs1 Hs2).
  unfold bind at 1. rewrite Hroot.
  destruct (forallb Spec.negligible (Spec.diagonal n (map snd (np.data z))))
    eqn:Hclose.
  - rewrite (@frechet_tail _ n n d1 d2 (ComplexArr z) w' Hshape).
    + reflexivity.
    + intros z' Hz'. injection Hz' as <-. exact Hclose.
  - rewrite <- imaginary_diagonal in Hclose.
    destruct z as [x|u|p q dz]; simpl in Hshape; try discriminate.
    injection Hshape as -> ->. simpl in Hclose.
    destruct dz as [|y dz].
    + rewrite allclose_negligible, diag_square in Hclose. simpl in Hclose.
      rewrite negligible_of_empty_buffer in Hclose. discriminate.
    + unfold bind at 1. unfold discard_imaginary. unfold bind at 1.
      unfold lift at 1. unfold cnp.imag_part at 1. simpl np.amap.
      simpl np.diagonal. cbv iota. simpl map in Hclose. rewrite Hclose.
      reflexivity.
Qed.

(** *** Computations that leave the world alone *)

Local Abbreviation silent := (@silent G).

Lemma silent_lift A (r : result A) : silent (lift r).
Proof. intros w; reflexivity. Qed.

Lemma silent_ret A (a : A) : silent (ret a).
Proof. intros w; reflexivity. Qed.

Lemma silent_raise A (e : exn) : silent (raise (A:=A) e).
Proof. intros w; reflexivity. Qed.

Lemma silent_bind A B (c : M G A) (k : A -> M G B) :
  silent c -> (forall a, silent (k a)) -> silent (bind c k).
Proof.
  intros Hc Hk w. unfold bind. specialize (Hc w).
  destruct (c w) as [[a|e] w1]; simpl in *; subst; auto. apply Hk.
Qed.

Lemma silent_discard_imaginary (c : carray) : silent (discard_imaginary c).
Proof.
  destruct c as [a|z]; simpl; [apply silent_ret|].
  apply silent_bind; [apply silent_lift|]. intros dg.
  destruct (negb _); [|apply silent_ret].
  apply silent_bind; [apply silent_lift|]. intros m. apply silent_raise.
Qed.

Create HintDb silent.
#[local] Hint Resolve silent_lift silent_ret silent_raise
  silent_discard_imaginary : silent.

Ltac silent_steps :=
  repeat (first [ apply silent_bind; [solve [auto with silent]|intro]
                | solve [auto with silent] ]).

Lemma broadcast_same_shape (op : float -> float -> float) (a b : ndarray) :
  np.shape a = np.shape b -> exists c, np.broadcast op a b = Ok c.
Proof.
  destruct a as [x|v|n m d], b as [y|u|n' m' e]; simpl; intros H;
    try discriminate.
  - eexists; apply broadcast_scalars.
  - injection H as H. eexists; apply (broadcast_vectors _ _ _ H).
  - injection H as <- <-. eexists; apply broadcast_matrices.
Qed.

(** The function up to the square-root stage, on means of one shape and
    square covariances of one size. *)
Lemma frechet_head_shapes (mu1 sigma1 mu2 sigma2 : ndarray) (eps : float)
      (w : World G) (n : nat) (d1 d2 : list float) :
  np.shape (np.atleast_1d mu1) = np.shape (np.atleast_1d mu2) ->
  np.atleast_2d sigma1 = Arr2 n n d1 ->
  np.atleast_2d sigma2 = Arr2 n n d2 ->
  exists diff,
    calculate_frechet_distance lib sqrtm mu1 sigma1 mu2 sigma2 eps w
    = bind (sqrtm_stable lib sqrtm (Arr2 n n d1) (Arr2 n n d2) eps) (fun covmean =>
      bind (discard_imaginary covmean) (fun covmean =>
      bind (lift (np.trace lib covmean)) (fun tr_covmean =>
      bind (lift (np.dot lib diff diff)) (fun dd =>
      bind (lift (np.trace lib (Arr2 n n d1))) (fun tr1 =>
      bind (lift (np.add dd tr1)) (fun r1 =>
      bind (lift (np.trace lib (Arr2 n n d2))) (fun tr2 =>
      bind (lift (np.add r1 tr2)) (fun r2 =>
      bind (lift (np.mul (Arr0 PrimFloat.two) tr_covmean)) (fun twice =>
      lift (np.sub r2 twice)))))))))) w.
Proof.
  intros Hmu Hs1 Hs2.
  destruct (broadcast_same_shape PrimFloat.sub _ _ Hmu) as (diff & Hdiff).
  exists diff.
  unfold calculate_frechet_distance. rewrite Hs1, Hs2, Hmu.
  simpl np.shape. rewrite !shape_eqb_refl.
  unfold assert_. unfold bind at 1 2. unfold ret at 1 2.
  unfold np.sub at 1. rewrite Hdiff.
  unfold bind at 1. unfold lift at 1. reflexivity.
Qed.

(** What follows the square-root stage leaves the world as it is. *)
Lemma frechet_rest_silent (diff s1 s2 : ndarray) :
  forall covmean : carray,
  silent (
    bind (discard_imaginary covmean) (fun covmean =>
    bind (lift (np.trace lib covmean)) (fun tr_covmean =>
    bind (lift (np.dot lib diff diff)) (fun dd =>
    bind (lift (np.trace lib s1)) (fun tr1 =>
    bind (lift (np.add dd tr1)) (fun r1 =>
    bind (lift (np.trace lib s2)) (fun tr2 =>
    bind (lift (np.add r1 tr2)) (fun r2 =>
    bind (lift (np.mul (Arr0 PrimFloat.two) tr_covmean)) (fun twice =>
    lift (np.sub r2 twice)))))))))).
Proof. intros covmean. silent_steps. Qed.

(** The world a stage leaves is the world the function leaves. *)
Lemma bind_silent_world A B (c : M G A) (k : A -> M G B) (w : World G) :
  (forall a, silent (k a)) -> snd (bind c k w) = snd (c w).
Proof.
  intros Hk. unfold bind. destruct (c w) as [[a|e] w1]; [|reflexivity].
  apply Hk.
Qed.

(** C4. When the asserts pass and the first square root of the product is
    not finite, the message is printed, [eps] times the identity is added to
    both covariances, and the square root is called once more, on the
    product of the regularised matrices.  Whatever that second call comes to
    is what the function goes on with: an array, finite or not, is used as
    it is, and an error of the call is the error of the function.  The
    function calls [scipy.linalg.sqrtm] exactly these two times.  The
    default of [eps] is the double nearest to [1e-6]. *)
Theorem singular_product_retry
        (mu1 sigma1 mu2 sigma2 : ndarray) (eps : float) (w : World G)
        (n : nat) (d1 d2 : list float) (root : carray) :
  np.shape (np.atleast_1d mu1) = np.shape (np.atleast_1d mu2) ->
  np.atleast_2d sigma1 = Arr2 n n d1 ->
  np.atleast_2d sigma2 = Arr2 n n d2 ->
  let P := Arr2 n n (gemm lib n n n d1 d2) in
  let P' := Arr2 n n (gemm lib n n n (Spec.regularized eps n d1)
                                     (Spec.regularized eps n d2)) in
  let events := [EvSqrtm P; EvPrint (MsgSingular eps); EvSqrtm P'] in
  sqrtm P = SqrtmReturns root ->
  cnp.all_finite root = false ->
  sqrtm_stable lib sqrtm (np.atleast_2d sigma1) (np.atleast_2d sigma2) eps w
  = (sqrtm_result (sqrtm P'), after w events)
  /\ snd (calculate_frechet_distance lib sqrtm mu1 sigma1 mu2 sigma2 eps w)
     = after w events
  /\ (forall v, sqrtm P' = SqrtmRaises v ->
        calculate_frechet_distance lib sqrtm mu1 sigma1 mu2 sigma2 eps w
        = (Raise (ValueError v), after w events))
  /\ eps_default = 0x1.0c6f7a0b5ed8dp-20%float.
Proof.
  intros Hmu Hs1 Hs2 P P' events Hroot Hfin. rewrite Hs1, Hs2.
  pose proof (@sqrtm_stable_retry n d1 d2 eps w root Hroot Hfin) as Hretry.
  destruct (@frechet_head_shapes mu1 sigma1 mu2 sigma2 eps w n d1 d2 Hmu Hs1 Hs2)
    as (diff & ->).
  split; [exact Hretry|]. split; [|split].
  - rewrite bind_silent_world by apply frechet_rest_silent.
    now rewrite Hretry.
  - intros v Hv. unfold bind at 1. rewrite Hretry. fold P'. rewrite Hv.
    reflexivity.
  - reflexivity.
Qed.

(** *** Computations that never end in an assertion error *)

Local Abbreviation never_asserts := (@never_asserts G).

Lemma never_asserts_lift A (r : result A) :
  is_assertion_error r = false -> never_asserts (lift r).
Proof. intros H w; exact H. Qed.

Lemma never_asserts_ret A (a : A) : never_asserts (ret a).
Proof. intros w; reflexivity. Qed.

Lemma never_asserts_emit (e : event) : never_asserts (emit e).
Proof. intros w; reflexivity. Qed.

Lemma never_asserts_bind A B (c : M G A) (k : A -> M G B) :
  never_asserts c -> (forall a, never_asserts (k a)) -> never_asserts (bind c k).
Proof.
  intros Hc Hk w. unfold bind. specialize (Hc w).
  destruct (c w) as [[a|e] w1]; simpl in *; auto. apply Hk.
Qed.

Lemma broadcast_no_assert (op : float -> float -> float) (a b : ndarray) :
  is_assertion_error (np.broadcast op a b) = false.
Proof.
  unfold np.broadcast. destruct (np.grid a), (np.grid b).
  destruct (np.bdim _ _); [destruct (np.bdim _ _)|]; reflexivity.
Qed.

Lemma add_no_assert (a b : ndarray) : is_assertion_error (np.add a b) = false.
Proof. apply broadcast_no_assert. Qed.

Lemma sub_no_assert (a b : ndarray) : is_assertion_error (np.sub a b) = false.
Proof. apply broadcast_no_assert. Qed.

Lemma mul_no_assert (a b : ndarray) : is_assertion_error (np.mul a b) = false.
Proof. apply broadcast_no_assert. Qed.

Lemma dot_no_assert (a b : ndarray) : is_assertion_error (np.dot lib a b) = false.
Proof.
  destruct a, b; unfold np.dot;
    first [ apply broadcast_no_assert | destruct (_ =? _); reflexivity ].
Qed.

Lemma trace_no_assert (a : ndarray) : is_assertion_error (np.trace lib a) = false.
Proof. destruct a; reflexivity. Qed.

Lemma diagonal_no_assert (a : ndarray) : is_assertion_error (np.diagonal a) = false.
Proof. destruct a; reflexivity. Qed.

Lemma max_no_assert (a : ndarray) : is_assertion_error (np.max a) = false.
Proof. unfold np.max. destruct (np.data a); reflexivity. Qed.

Create HintDb no_assert.
#[local] Hint Resolve never_asserts_ret never_asserts_emit never_asserts_lift
  add_no_assert sub_no_assert mul_no_assert dot_no_assert trace_no_assert
  diagonal_no_assert max_no_assert : no_assert.

Ltac no_assert_steps :=
  repeat (first [ apply never_asserts_bind; [solve [auto with no_assert]|intro]
                | solve [auto with no_assert] ]).

Lemma sqrtm_result_no_assert (o : sqrtm_outcome) :
  is_assertion_error (sqrtm_result o) = false.
Proof. destruct o; reflexivity. Qed.

#[local] Hint Resolve sqrtm_result_no_assert : no_assert.

Lemma never_asserts_call_sqrtm (a : ndarray) : never_asserts (call_sqrtm sqrtm a).
Proof. unfold call_sqrtm. no_assert_steps. Qed.

Lemma never_asserts_sqrtm_stable (s1 s2 : ndarray) (eps : float) :
  never_asserts (sqrtm_stable lib sqrtm s1 s2 eps).
Proof.
  unfold sqrtm_stable.
  apply never_asserts_bind; [auto with no_assert|intro prod].
  apply never_asserts_bind; [apply never_asserts_call_sqrtm|intro c].
  destruct (negb _); [|apply never_asserts_ret].
  unfold print. no_assert_steps; apply never_asserts_call_sqrtm.
Qed.

Lemma never_asserts_discard_imaginary (c : carray) :
  never_asserts (discard_imaginary c).
Proof.
  destruct c as [a|z]; simpl; [apply never_asserts_ret|].
  apply never_asserts_bind; [auto with no_assert|intro dg].
  destruct (negb _); [|apply never_asserts_ret].
  apply never_asserts_bind; [auto with no_assert|intro m].
  intros w; reflexivity.
Qed.

#[local] Hint Resolve never_asserts_sqrtm_stable never_asserts_discard_imaginary
  : no_assert.

(** C5. The two asserts come first.  When the promoted means differ in shape,
    or the promoted covariances do, the function ends in an [AssertionError]
    and nothing has been computed or printed; when both pairs of shapes agree
    the function never ends in an [AssertionError]. *)
Theorem shape_asserts
        (mu1 sigma1 mu2 sigma2 : ndarray) (eps : float) (w : World G) :
  let same_shapes :=
    np.shape_eqb (np.shape (np.atleast_1d mu1)) (np.shape (np.atleast_1d mu2))
    && np.shape_eqb (np.shape (np.atleast_2d sigma1))
                    (np.shape (np.atleast_2d sigma2)) in
  if same_shapes
  then is_assertion_error
         (fst (calculate_frechet_distance lib sqrtm mu1 sigma1 mu2 sigma2 eps w))
       = false
  else exists msg,
         calculate_frechet_distance lib sqrtm mu1 sigma1 mu2 sigma2 eps w
         = (Raise (AssertionError msg), w).
Proof.
  intros same_shapes. subst same_shapes. unfold calculate_frechet_distance.
  destruct (np.shape_eqb (np.shape (np.atleast_1d mu1)) _) eqn:Hmu; simpl andb.
  - destruct (np.shape_eqb (np.shape (np.atleast_2d sigma1)) _) eqn:Hsigma.
    + unfold assert_. unfold bind at 1 2. unfold ret at 1 2.
      match goal with |- is_assertion_error (fst (?c w)) = false =>
        assert (H : never_asserts c) end.
      { no_assert_steps. }
      apply H.
    + eexists. reflexivity.
  - eexists. reflexivity.
Qed.

(** *** Computations that ignore the world *)

Local Abbreviation oblivious := (@oblivious G).

Lemma oblivious_lift A (r : result A) : oblivious (lift r).
Proof. exists r, []. intros w. unfold lift. now rewrite after_nil. Qed.

Lemma oblivious_ret A (a : A) : oblivious (ret a).
Proof. apply (oblivious_lift (Ok a)). Qed.

Lemma oblivious_raise A (e : exn) : oblivious (raise (A:=A) e).
Proof. apply (oblivious_lift (Raise e)). Qed.

Lemma oblivious_emit (e : event) : oblivious (emit e).
Proof. exists (Ok tt), [e]. intros w. reflexivity. Qed.

Lemma oblivious_bind A B (c : M G A) (k : A -> M G B) :
  oblivious c -> (forall a, oblivious (k a)) -> oblivious (bind c k).
Proof.
  intros (r & e1 & Hc) Hk. destruct r as [a|e].
  - destruct (Hk a) as (r' & e2 & Hka).
    exists r', (e1 ++ e2). intros w. unfold bind.
    now rewrite Hc, Hka, after_after.
  - exists (Raise e), e1. intros w. unfold bind. now rewrite Hc.
Qed.

Create HintDb oblivious.
#[local] Hint Resolve oblivious_lift oblivious_ret oblivious_raise oblivious_emit
  : oblivious.

Ltac oblivious_steps :=
  repeat (first [ apply oblivious_bind; [solve [auto with oblivious]|intro]
                | solve [auto with oblivious] ]).

Lemma oblivious_call_sqrtm (a : ndarray) : oblivious (call_sqrtm sqrtm a).
Proof. unfold call_sqrtm. oblivious_steps. Qed.

Lemma oblivious_sqrtm_stable (s1 s2 : ndarray) (eps : float) :
  oblivious (sqrtm_stable lib sqrtm s1 s2 eps).
Proof.
  unfold sqrtm_stable.
  apply oblivious_bind; [auto with oblivious|intro prod].
  apply oblivious_bind; [apply oblivious_call_sqrtm|intro c].
  destruct (negb _); [|apply oblivious_ret].
  unfold print. oblivious_steps; apply oblivious_call_sqrtm.
Qed.

Lemma oblivious_discard_imaginary (c : carray) : oblivious (discard_imaginary c).
Proof.
  destruct c as [a|z]; simpl; [apply oblivious_ret|].
  apply oblivious_bind; [auto with oblivious|intro dg].
  destruct (negb _); oblivious_steps.
Qed.

#[local] Hint Resolve oblivious_sqrtm_stable oblivious_discard_imaginary
  : oblivious.

(** C8. For fixed arguments, [calculate_frechet_distance] has one outcome (a
    value or an exception) and one sequence of events, the same in every
    world it is started in; it leaves the random generator as it was. *)
Theorem frechet_deterministic
        (mu1 sigma1 mu2 sigma2 : ndarray) (eps : float) :
  exists (outcome : result ndarray) (events : list event),
    forall w : World G,
      calculate_frechet_distance lib sqrtm mu1 sigma1 mu2 sigma2 eps w
      = (outcome, after w events).
Proof.
  assert (H : oblivious (calculate_frechet_distance lib sqrtm mu1 sigma1 mu2 sigma2 eps)).
  { unfold calculate_frechet_distance, assert_.
    apply oblivious_bind; [destruct (np.shape_eqb _ _); auto with oblivious|intro].
    apply oblivious_bind; [destruct (np.shape_eqb _ _); auto with oblivious|intro].
    oblivious_steps. }
  exact H.
Qed.





(** *** Further properties of the distance *)

Lemma atleast_2d_is_matrix (a : ndarray) :
  exists n m d, np.atleast_2d a = Arr2 n m d.
Proof. destruct a; simpl; eauto. Qed.

Lemma dot_not_square (n m : nat) (d e : list float) :
  n <> m ->
  np.dot lib (Arr2 n m d) (Arr2 n m e)
  = Raise (ValueError (ShapesNotAligned [n; m] [n; m])).
Proof.
  intros H. simpl. destruct (m =? n) eqn:E; [|reflexivity].
  apply Nat.eqb_eq in E. congruence.
Qed.

Lemma bind_ret A B (a : A) (k : A -> M G B) (w : World G) :
  bind (ret a) k w = k a w.
Proof. reflexivity. Qed.

Lemma bind_lift_ok A B (a : A) (k : A -> M G B) (w : World G) :
  bind (lift (Ok a)) k w = k a w.
Proof. reflexivity. Qed.

(** Covariances of one shape that is not square: the product fails. *)
Lemma frechet_not_square (mu1 sigma1 mu2 sigma2 : ndarray) (eps : float)
      (w : World G) (n m : nat) (d1 d2 : list float) :
  np.shape (np.atleast_1d mu1) = np.shape (np.atleast_1d mu2) ->
  np.atleast_2d sigma1 = Arr2 n m d1 ->
  np.atleast_2d sigma2 = Arr2 n m d2 ->
  n <> m ->
  calculate_frechet_distance lib sqrtm mu1 sigma1 mu2 sigma2 eps w
  = (Raise (ValueError (ShapesNotAligned [n; m] [n; m])), w).
Proof.
  intros Hmu Hs1 Hs2 Hnm.
  unfold calculate_frechet_distance. rewrite Hs1, Hs2, Hmu.
  simpl np.shape. rewrite !shape_eqb_refl.
  unfold assert_. unfold bind at 1 2. unfold ret at 1 2.
  destruct (broadcast_same_shape PrimFloat.sub _ _ Hmu) as (diff & Hdiff).
  unfold np.sub. rewrite Hdiff. unfold bind at 1. unfold lift at 1.
  unfold bind at 1. unfold sqrtm_stable. unfold bind at 1.
  rewrite (dot_not_square d1 d2 Hnm). reflexivity.
Qed.

(** The worlds the function can leave, for all arguments: the world it
    started in, and then it has raised before the product was formed; or one
    call of the square root on the product of the promoted covariances; or
    that call, the message and a second call. *)
Lemma frechet_world (mu1 sigma1 mu2 sigma2 : ndarray) (eps : float) (w : World G) :
  (calculate_frechet_distance lib sqrtm mu1 sigma1 mu2 sigma2 eps w
   = (fst (calculate_frechet_distance lib sqrtm mu1 sigma1 mu2 sigma2 eps w), w)
   /\ is_ok (fst (calculate_frechet_distance lib sqrtm mu1 sigma1 mu2 sigma2 eps w))
      = false)
  \/ (exists P,
        np.dot lib (np.atleast_2d sigma1) (np.atleast_2d sigma2) = Ok P
        /\ snd (calculate_frechet_distance lib sqrtm mu1 sigma1 mu2 sigma2 eps w)
           = after w [EvSqrtm P])
  \/ (exists P P',
        np.dot lib (np.atleast_2d sigma1) (np.atleast_2d sigma2) = Ok P
        /\ snd (calculate_frechet_distance lib sqrtm mu1 sigma1 mu2 sigma2 eps w)
           = after w [EvSqrtm P; EvPrint (MsgSingular eps); EvSqrtm P']).
Proof.
  destruct (np.shape_eqb (np.shape (np.atleast_1d mu1))
                         (np.shape (np.atleast_1d mu2))) eqn:Hmu;
    [|left; unfold calculate_frechet_distance; rewrite Hmu; split; reflexivity].
  destruct (np.shape_eqb (np.shape (np.atleast_2d sigma1))
                         (np.shape (np.atleast_2d sigma2))) eqn:Hsigma;
    [|left; unfold calculate_frechet_distance; rewrite Hmu, Hsigma;
      split; reflexivity].
  apply shape_eqb_eq in Hmu, Hsigma.
  destruct (atleast_2d_is_matrix sigma1) as (n & m & d1 & E1).
  destruct (atleast_2d_is_matrix sigma2) as (n' & m' & d2 & E2).
  rewrite E1, E2 in *. simpl in Hsigma. injection Hsigma as <- <-.
  destruct (Nat.eq_dec n m) as [<-|Hnm].
  - right.
    destruct (@frechet_head_shapes mu1 sigma1 mu2 sigma2 eps w n d1 d2 Hmu E1 E2)
      as (diff & ->).
    rewrite bind_silent_world by apply frechet_rest_silent.
    rewrite dot_square.
    destruct (sqrtm_stable_events n d1 d2 eps w) as (r & later & -> & [->| ->]).
    + left. eexists. split; reflexivity.
    + right. eexists _, _. split; reflexivity.
  - left. rewrite (@frechet_not_square mu1 sigma1 mu2 sigma2 eps w n m d1 d2
                      Hmu E1 E2 Hnm).
    split; reflexivity.
Qed.

(** X1. Whatever the arguments, [calculate_frechet_distance] leaves one of
    three traces: nothing, and then it has raised before the product of the
    covariances was formed; one call of the square root on that product; or
    that call, the message and a second call.  So it never calls the square
    root a third time, prints the message exactly when it retries, and never
    returns a value without having called the square root. *)
Theorem sqrtm_called_at_most_twice
        (mu1 sigma1 mu2 sigma2 : ndarray) (eps : float) (w : World G) :
  (snd (calculate_frechet_distance lib sqrtm mu1 sigma1 mu2 sigma2 eps w) = w
   /\ is_ok (fst (calculate_frechet_distance lib sqrtm mu1 sigma1 mu2 sigma2 eps w))
      = false)
  \/ (exists P,
        np.dot lib (np.atleast_2d sigma1) (np.atleast_2d sigma2) = Ok P
        /\ snd (calculate_frechet_distance lib sqrtm mu1 sigma1 mu2 sigma2 eps w)
           = after w [EvSqrtm P])
  \/ (exists P P',
        np.dot lib (np.atleast_2d sigma1) (np.atleast_2d sigma2) = Ok P
        /\ snd (calculate_frechet_distance lib sqrtm mu1 sigma1 mu2 sigma2 eps w)
           = after w [EvSqrtm P; EvPrint (MsgSingular eps); EvSqrtm P']).
Proof.
  destruct (frechet_world mu1 sigma1 mu2 sigma2 eps w) as [[E Hok]|[H|H]].
  - left. split; [|exact Hok]. now rewrite E.
  - right. left. exact H.
  - right. right. exact H.
Qed.

(** X2. Covariances of one shape that are not square are rejected by the
    matrix product: the function raises [ValueError] before the square root
    is called.  In particular a covariance given as a vector of length other
    than one is promoted to a single row and fails here. *)
Theorem non_square_covariance_rejected
        (mu1 sigma1 mu2 sigma2 : ndarray) (eps : float) (w : World G)
        (n m : nat) (d1 d2 : list float) :
  np.shape (np.atleast_1d mu1) = np.shape (np.atleast_1d mu2) ->
  np.atleast_2d sigma1 = Arr2 n m d1 ->
  np.atleast_2d sigma2 = Arr2 n m d2 ->
  n <> m ->
  calculate_frechet_distance lib sqrtm mu1 sigma1 mu2 sigma2 eps w
  = (Raise (ValueError (ShapesNotAligned [n; m] [n; m])), w).
Proof.
  intros Hmu Hs1 Hs2 Hnm.
  exact (@frechet_not_square mu1 sigma1 mu2 sigma2 eps w n m d1 d2
           Hmu Hs1 Hs2 Hnm).
Qed.


(** X14. Means passed as two-dimensional arrays that are not square, such as
    row vectors of more than one entry, pass the asserts and reach the end of
    the function, where [diff.dot(diff)] is a matrix product and raises
    [ValueError]; the square root has been computed by then. *)
Theorem matrix_means_rejected_late
        (mu1 sigma1 mu2 sigma2 : ndarray) (eps : float) (w : World G)
        (r c : nat) (m1 m2 : list float) (n : nat) (d1 d2 : list float)
        (root : carray) :
  np.atleast_1d mu1 = Arr2 r c m1 ->
  np.atleast_1d mu2 = Arr2 r c m2 ->
  r <> c ->
  np.atleast_2d sigma1 = Arr2 n n d1 ->
  np.atleast_2d sigma2 = Arr2 n n d2 ->
  let P := Arr2 n n (gemm lib n n n d1 d2) in
  sqrtm P = SqrtmReturns root ->
  cnp.shape root = [n; n] ->
  cnp.all_finite root = true ->
  (forall z, root = ComplexArr z ->
     np.allclose_zero imag_atol (np.diag n n (np.data (cnp.imag_part z))) = true) ->
  calculate_frechet_distance lib sqrtm mu1 sigma1 mu2 sigma2 eps w
  = (Raise (ValueError (ShapesNotAligned [r; c] [r; c])), after w [EvSqrtm P]).
Proof.
  intros Hm1 Hm2 Hrc Hs1 Hs2 P Hroot Hshape Hfin Himag.
  unfold calculate_frechet_distance. rewrite Hm1, Hm2, Hs1, Hs2.
  simpl np.shape. rewrite !shape_eqb_refl.
  cbn [assert_]. rewrite !bind_ret.
  unfold np.sub at 1. rewrite broadcast_matrices, bind_lift_ok.
  unfold bind at 1. rewrite (@sqrtm_stable_finite n d1 d2 eps w root Hroot Hfin). fold P.
  destruct (@discard_negligible root n (after w [EvSqrtm P]) Hshape Himag)
    as (Hd & Hr).
  unfold bind at 1. rewrite Hd, Hr.
  unfold bind at 1. unfold lift at 1. cbn [np.trace].
  unfold bind at 1. unfold lift at 1.
  rewrite (dot_not_square _ _ Hrc). reflexivity.
Qed.

(** Which assert an [AssertionError] comes from. *)
Lemma frechet_assertion (mu1 sigma1 mu2 sigma2 : ndarray) (eps : float)
      (w : World G) (msg : string) :
  fst (calculate_frechet_distance lib sqrtm mu1 sigma1 mu2 sigma2 eps w)
  = Raise (AssertionError msg) ->
  (np.shape (np.atleast_1d mu1) <> np.shape (np.atleast_1d mu2)
   /\ msg = "Training and test mean vectors have different lengths"%string)
  \/ (np.shape (np.atleast_2d sigma1) <> np.shape (np.atleast_2d sigma2)
      /\ msg = "Training and test covariances have different dimensions"%string).
Proof.
  unfold calculate_frechet_distance.
  destruct (np.shape_eqb (np.shape (np.atleast_1d mu1)) _) eqn:Hmu.
  - destruct (np.shape_eqb (np.shape (np.atleast_2d sigma1)) _) eqn:Hsigma.
    + cbn [assert_]. rewrite !bind_ret. intros H.
      match type of H with fst (?c w) = _ =>
        assert (Hn : never_asserts c) end.
      { no_assert_steps. }
      specialize (Hn w). rewrite H in Hn. discriminate.
    + cbn. intros H. injection H as <-. right. split; [|reflexivity].
      intros E. apply shape_eqb_eq in E. congruence.
  - cbn. intros H. injection H as <-. left. split; [|reflexivity].
    intros E. apply shape_eqb_eq in E. congruence.
Qed.

End Frechet.
(** ** The activation statistics *)

Section Statistics.

Variable G : Type.
Variable lib : Numerics.
Variable randn : list nat -> G -> tensor * G.
Variable sqrtm : ndarray -> sqrtm_outcome.
Variable calc_z_shapes : nat -> nat -> nat -> nat -> list (list nat).

(** The objects one run works with. *)
Variable config : Config.
Variable reverse : list tensor -> tensor.
Variable inception : tensor -> list tensor.

(** *** Inversion of the monadic steps *)

Lemma bind_ok A B (c : M G A) (k : A -> M G B) (w w' : World G) (b : B) :
  bind c k w = (Ok b, w') ->
  exists a w1, c w = (Ok a, w1) /\ k a w1 = (Ok b, w').
Proof.
  unfold bind. destruct (c w) as [[a|e] w1]; intros H; [eauto|discriminate].
Qed.

Lemma lift_ok A (r : result A) (w w' : World G) (a : A) :
  lift r w = (Ok a, w') -> r = Ok a /\ w' = w.
Proof. unfold lift. intros H; injection H; auto. Qed.

Lemma ret_ok A (x a : A) (w w' : World G) :
  ret x w = (Ok a, w') -> a = x /\ w' = w.
Proof. unfold ret. intros H; injection H; auto. Qed.

(** *** The latent sample of one batch *)

Lemma sample_loop (bs : nat) (t : float) :
  forall (zshapes : list (list nat)) (acc : list tensor) (w : World G),
  for_each zshapes
    (fun z z_sample =>
       bind (call_randn randn (bs :: z))
            (fun z_new => ret (z_sample ++ [torch.scale lib z_new t])))
    acc w
  = (Ok (acc ++ fst (draw_latents lib randn t (map (cons bs) zshapes) (rng w))),
     mkWorld (snd (draw_latents lib randn t (map (cons bs) zshapes) (rng w)))
             (trace w ++ map EvRandn (map (cons bs) zshapes))).
Proof.
  induction zshapes as [|z zs IH]; intros acc w.
  - simpl. unfold ret. destruct w; simpl. now rewrite !app_nil_r.
  - simpl for_each. unfold bind at 1. unfold bind at 1. unfold call_randn at 1.
    simpl map. simpl draw_latents.
    destruct (randn (bs :: z) (rng w)) as [x g1] eqn:Hx.
    unfold ret at 1. rewrite IH. simpl rng. simpl trace.
    destruct (draw_latents lib randn t (map (cons bs) zs) g1) as [ts g2]. simpl.
    now rewrite <- !app_assoc.
Qed.

Lemma sample_z_draws (w : World G) :
  let drawn :=
    draw_latents lib randn (temp config) (latent_shapes calc_z_shapes config) (rng w) in
  sample_z lib randn calc_z_shapes config w
  = (Ok (fst drawn),
     mkWorld (snd drawn)
             (trace w ++ map EvRandn (latent_shapes calc_z_shapes config))).
Proof. unfold sample_z. now rewrite sample_loop. Qed.

(** *** One batch *)

Lemma reshape_rows_data (rows : nat) (t t' : tensor) :
  torch.reshape_rows rows t = Ok t' ->
  tdata t' = tdata t
  /\ tshape t' = [rows; torch.numel (tshape t) / rows]
  /\ 0 < rows
  /\ torch.numel (tshape t) mod rows = 0.
Proof.
  unfold torch.reshape_rows.
  destruct (rows =? 0) eqn:E0; simpl; [discriminate|].
  destruct (torch.numel (tshape t) mod rows =? 0) eqn:Em; simpl; [|discriminate].
  intros H; injection H as <-. simpl.
  apply Nat.eqb_neq in E0. apply Nat.eqb_eq in Em.
  repeat split; auto. lia.
Qed.

Lemma call_inception_ok (x f : tensor) (w w' : World G) :
  call_inception inception x w = (Ok f, w') ->
  tdata f = features_of inception x /\ w' = after w [EvInception x].
Proof.
  unfold call_inception, features_of, bind, emit.
  destruct (inception x) as [|f0 fs]; simpl; [discriminate|].
  unfold ret. intros H; injection H as <- <-. split; reflexivity.
Qed.

(** A batch that goes through: the two feature tensors it appends, the
    events it causes and the generator state it leaves. *)
Lemma batch_step_ok (image label : tensor) (tvs avs : list tensor)
      (vecs : list tensor * list tensor) (w w' : World G) :
  batch_step lib randn calc_z_shapes config reverse inception
             (image, label) (tvs, avs) w
  = (Ok vecs, w') ->
  let zs :=
    fst (draw_latents lib randn (temp config) (latent_shapes calc_z_shapes config)
                      (rng w)) in
  exists tv av,
    vecs = (tvs ++ [tv], avs ++ [av])
    /\ tdata tv = features_of inception image
    /\ tdata av = features_of inception (reverse zs)
    /\ 0 < batch config
    /\ w' = advance w (batch_events lib randn calc_z_shapes config reverse image).
Proof.
  intros H zs. unfold batch_step in H.
  apply bind_ok in H. destruct H as (f & w1 & Hf & H).
  apply call_inception_ok in Hf. destruct Hf as (Hf & ->).
  apply bind_ok in H. destruct H as (tv & w2 & Htv & H).
  apply lift_ok in Htv. destruct Htv as (Htv & ->).
  apply reshape_rows_data in Htv. destruct Htv as (Dtv & _ & Hbs & _).
  apply bind_ok in H. destruct H as (zs' & w3 & Hzs & H).
  rewrite sample_z_draws in Hzs. injection Hzs as <- <-.
  simpl rng in *. simpl trace in *. fold zs in H.
  apply bind_ok in H. destruct H as (pics & w4 & Hp & H).
  unfold call_reverse, bind, emit, ret in Hp. simpl in Hp.
  injection Hp as <- <-.
  apply bind_ok in H. destruct H as (u & w5 & Hu & H).
  assert (Hw5 : w5 = mkWorld
                       (snd (draw_latents lib randn (temp config)
                               (latent_shapes calc_z_shapes config) (rng w)))
                       (trace w ++ [EvInception image]
                          ++ map EvRandn (latent_shapes calc_z_shapes config)
                          ++ [EvReverse zs] ++ nan_report (reverse zs))).
  { unfold nan_report. destruct (0 <? torch.count_nan (reverse zs)).
    - unfold print, emit in Hu. injection Hu as <- <-. simpl.
      f_equal. now rewrite <- !app_assoc.
    - unfold ret in Hu. injection Hu as <- <-. simpl.
      f_equal. rewrite <- !app_assoc. simpl. reflexivity. }
  clear Hu. subst w5.
  apply bind_ok in H. destruct H as (g & w6 & Hg & H).
  apply call_inception_ok in Hg. destruct Hg as (Hg & ->).
  apply bind_ok in H. destruct H as (av & w7 & Hav & H).
  apply lift_ok in Hav. destruct Hav as (Hav & ->).
  apply reshape_rows_data in Hav. destruct Hav as (Dav & _).
  apply ret_ok in H. destruct H as (-> & ->).
  exists tv, av. repeat split; try congruence.
  unfold advance, batch_events, after. simpl.
  destruct (draw_latents lib randn (temp config)
              (latent_shapes calc_z_shapes config) (rng w)) as [zs0 g0] eqn:Hd.
  simpl. subst zs. simpl. f_equal.
  repeat (rewrite <- app_assoc; simpl). reflexivity.
Qed.

(** *** The loop over the dataloader *)

Lemma loader_loop :
  forall (dataloader : list (tensor * tensor)) (tvs avs : list tensor)
         (w w' : World G) (vecs : list tensor * list tensor),
  for_each dataloader
           (batch_step lib randn calc_z_shapes config reverse inception)
           (tvs, avs) w
  = (Ok vecs, w') ->
  exists tvs' avs',
    vecs = (tvs ++ tvs', avs ++ avs')
    /\ length tvs' = length dataloader
    /\ concat (map tdata tvs')
       = flat_map (fun item => features_of inception (fst item)) dataloader
    /\ concat (map tdata avs')
       = flat_map (features_of inception)
                  (generated_pictures lib randn calc_z_shapes config reverse
                                      (length dataloader) (rng w))
    /\ (dataloader <> [] -> 0 < batch config)
    /\ w' = advance w (loader_events lib randn calc_z_shapes config reverse dataloader).
Proof.
  induction dataloader as [|[image label] rest IH]; intros tvs avs w w' vecs H.
  - simpl in H. apply ret_ok in H. destruct H as (-> & ->).
    exists [], []. unfold advance. simpl. rewrite !app_nil_r. repeat split; auto.
    + intros C; now elim C.
    + now destruct w.
  - cbn [for_each] in H. apply bind_ok in H. destruct H as (v1 & w1 & H1 & H).
    change (batch_step lib randn calc_z_shapes config reverse inception
                       (image, label) (tvs, avs) w = (Ok v1, w1)) in H1.
    apply batch_step_ok in H1.
    destruct H1 as (tv & av & -> & Dtv & Dav & Hbs & Hw1).
    apply IH in H. destruct H as (tvs' & avs' & -> & Lt & Ct & Ca & _ & ->).
    exists (tv :: tvs'), (av :: avs'). simpl.
    rewrite <- !app_assoc. simpl.
    subst w1. unfold advance, batch_events in *. simpl.
    destruct (draw_latents lib randn (temp config)
                (latent_shapes calc_z_shapes config) (rng w)) as [zs g1].
    simpl in *.
    destruct (loader_events lib randn calc_z_shapes config reverse rest g1)
      as [e2 g2]. simpl.
    repeat split; try congruence.
    f_equal. repeat (rewrite <- app_assoc; simpl). reflexivity.
Qed.

Lemma stack_ok (l : list tensor) (t : tensor) :
  torch.stack l = Ok t -> tdata t = concat (map tdata l) /\ l <> [].
Proof.
  unfold torch.stack. destruct l as [|t0 rest]; [discriminate|].
  destruct (torch.first_unequal _ _); [discriminate|].
  intros H; injection H as <-. split; [reflexivity|discriminate].
Qed.

Lemma view_rows_numpy_ok (rows : nat) (t : tensor) (a : ndarray) :
  torch.view_rows_numpy rows t = Ok a ->
  a = Arr2 rows (torch.numel (tshape t) / rows) (tdata t).
Proof.
  unfold torch.view_rows_numpy.
  destruct (torch.reshape_rows rows t) as [t'|e] eqn:E; [|discriminate].
  apply reshape_rows_data in E. destruct E as (-> & _).
  intros H; injection H as <-. reflexivity.
Qed.

(** The two stacked arrays of a run that goes through: both have
    [batch * len(dataloader)] rows; the buffer of the first lists the
    features of the images of the dataloader, the buffer of the second the
    features of the generated pictures. *)
Lemma stacked_features_ok (dataloader : list (tensor * tensor))
      (w w' : World G) (true_data ae_data : ndarray) :
  stacked_features lib randn calc_z_shapes config dataloader reverse inception w
  = (Ok (true_data, ae_data), w') ->
  exists c1 c2,
    true_data
    = Arr2 (batch config * length dataloader) c1
           (flat_map (fun item => features_of inception (fst item)) dataloader)
    /\ ae_data
       = Arr2 (batch config * length dataloader) c2
              (flat_map (features_of inception)
                        (generated_pictures lib randn calc_z_shapes config reverse
                                            (length dataloader) (rng w)))
    /\ 0 < batch config
    /\ w' = advance w (loader_events lib randn calc_z_shapes config reverse dataloader).
Proof.
  intros H. unfold stacked_features in H.
  apply bind_ok in H. destruct H as (vecs & w1 & Hloop & H).
  apply loader_loop in Hloop.
  destruct Hloop as (tvs & avs & -> & Lt & Ct & Ca & Hbs & ->). simpl in H.
  apply bind_ok in H. destruct H as (t & w2 & Ht & H).
  apply lift_ok in Ht. destruct Ht as (Ht & ->).
  apply bind_ok in H. destruct H as (td & w3 & Htd & H).
  apply lift_ok in Htd. destruct Htd as (Htd & ->).
  apply bind_ok in H. destruct H as (a & w4 & Ha & H).
  apply lift_ok in Ha. destruct Ha as (Ha & ->).
  apply bind_ok in H. destruct H as (ad & w5 & Had & H).
  apply lift_ok in Had. destruct Had as (Had & ->).
  apply ret_ok in H. destruct H as (H & ->). injection H as -> ->.
  apply view_rows_numpy_ok in Htd, Had. apply stack_ok in Ht, Ha.
  destruct Ht as (Dt & Hne), Ha as (Da & _).
  eexists _, _. subst td ad. rewrite Dt, Da, Ct, Ca.
  repeat split.
  apply Hbs. intros ->. simpl in Lt.
  destruct tvs; [now apply Hne|discriminate].
Qed.

(** *** The statistics *)

Lemma statistics_ok (dataloader : list (tensor * tensor))
      (w w' : World G) (mu1 s1 mu2 s2 : ndarray) :
  calculate_activation_statistics lib randn calc_z_shapes config dataloader
                                  reverse inception w
  = (Ok (mu1, s1, mu2, s2), w') ->
  exists true_data ae_data,
    stacked_features lib randn calc_z_shapes config dataloader reverse inception w
    = (Ok (true_data, ae_data), w')
    /\ np.mean_axis1 lib true_data = Ok mu1
    /\ np.mean_axis1 lib ae_data = Ok mu2
    /\ s1 = np.cov_rowvar_false lib true_data
    /\ s2 = np.cov_rowvar_false lib ae_data.
Proof.
  intros H. unfold calculate_activation_statistics in H.
  apply bind_ok in H. destruct H as ([td ad] & w1 & Hst & H).
  apply bind_ok in H. destruct H as (m1 & w2 & Hm1 & H).
  apply lift_ok in Hm1. destruct Hm1 as (Hm1 & ->).
  apply bind_ok in H. destruct H as (m2 & w3 & Hm2 & H).
  apply lift_ok in Hm2. destruct Hm2 as (Hm2 & ->).
  apply ret_ok in H. destruct H as (H & ->). injection H as -> -> -> ->.
  exists td, ad. repeat split; auto.
Qed.

Lemma mean_axis1_ok (a mu : ndarray) :
  np.mean_axis1 lib a = Ok mu ->
  exists n m d, a = Arr2 n m d /\ exists v, mu = Arr1 v /\ length v = n.
Proof.
  destruct a as [x|v|n m d]; simpl; try discriminate.
  intros H; injection H as <-. exists n, m, d. split; [reflexivity|].
  eexists; split; [reflexivity|]. now rewrite length_map, length_seq.
Qed.

(** The means that are returned have one entry per row of the stacked
    features, that is, one entry per sample. *)
Corollary statistics_mean_shape (dataloader : list (tensor * tensor))
          (w w' : World G) (mu1 s1 mu2 s2 : ndarray) :
  calculate_activation_statistics lib randn calc_z_shapes config dataloader
                                  reverse inception w
  = (Ok (mu1, s1, mu2, s2), w') ->
  np.shape mu1 = [batch config * length dataloader]
  /\ np.shape mu2 = [batch config * length dataloader].
Proof.
  intros H. apply statistics_ok in H.
  destruct H as (td & ad & Hst & Hm1 & Hm2 & _).
  apply stacked_features_ok in Hst. destruct Hst as (c1 & c2 & -> & -> & _).
  simpl in Hm1, Hm2. injection Hm1 as <-. injection Hm2 as <-.
  simpl. now rewrite !length_map, !length_seq.
Qed.

(** C7. In a run of [calculate_activation_statistics] that goes through, the
    events are those of [loader_events]: for every batch of the dataloader,
    in order, the classifier is called on the images, [torch.randn] is asked
    for one tensor per shape of [calc_z_shapes(3, img_size, n_flow, n_block)]
    with [batch] prepended, every draw starting from the generator state the
    previous draw left; the tensors drawn, every entry multiplied by [temp],
    are handed to [model.reverse], and the classifier is called on the
    pictures it returns.  The second pair of statistics is computed from the
    features the classifier returned on those pictures. *)
Theorem latent_sampling_per_batch
        (dataloader : list (tensor * tensor))
        (w w' : World G) (mu1 s1 mu2 s2 : ndarray) :
  calculate_activation_statistics lib randn calc_z_shapes config dataloader
                                  reverse inception w
  = (Ok (mu1, s1, mu2, s2), w') ->
  w' = advance w (loader_events lib randn calc_z_shapes config reverse dataloader)
  /\ exists cols,
       let ae_data :=
         Arr2 (batch config * length dataloader) cols
              (flat_map (features_of inception)
                        (generated_pictures lib randn calc_z_shapes config reverse
                                            (length dataloader) (rng w))) in
       np.mean_axis1 lib ae_data = Ok mu2 /\ s2 = np.cov_rowvar_false lib ae_data.
Proof.
  intros H. apply statistics_ok in H.
  destruct H as (td & ad & Hst & _ & Hm2 & _ & Hs2).
  apply stacked_features_ok in Hst.
  destruct Hst as (c1 & c2 & _ & -> & _ & ->).
  split; [reflexivity|]. exists c2. split; assumption.
Qed.

(** *** The reshape of every batch *)

Lemma call_inception_entries (x f : tensor) (w w' : World G) :
  call_inception inception x w = (Ok f, w') ->
  torch.numel (tshape f) = feature_entries inception x.
Proof.
  unfold call_inception, feature_entries, bind, emit. simpl.
  destruct (inception x) as [|f0 fs]; [discriminate|].
  unfold ret. intros H. injection H as <- _. reflexivity.
Qed.








(** *** Computations that only append to the trace *)










(** *** The composition *)

Lemma assert_ok (b : bool) (msg : string) (w w' : World G) (u : unit) :
  assert_ b msg w = (Ok u, w') -> b = true /\ w' = w.
Proof.
  unfold assert_. destruct b; [|discriminate].
  unfold ret. intros H; injection H as _ <-. auto.
Qed.

Lemma trace_ok (a t : ndarray) : np.trace lib a = Ok t -> exists x, t = Arr0 x.
Proof.
  destruct a; simpl; try discriminate. intros H; injection H as <-. eauto.
Qed.

(** On mean vectors the distance is a zero-dimensional array. *)
Lemma frechet_returns_scalar (v1 v2 : list float) (s1 s2 : ndarray) (eps : float)
      (w w' : World G) (v : ndarray) :
  calculate_frechet_distance lib sqrtm (Arr1 v1) s1 (Arr1 v2) s2 eps w = (Ok v, w') ->
  exists x, v = Arr0 x.
Proof.
  intros H. unfold calculate_frechet_distance in H. cbn [np.atleast_1d] in H.
  apply bind_ok in H. destruct H as (u1 & w1 & Ha1 & H).
  apply assert_ok in Ha1. destruct Ha1 as (Hlen & ->).
  apply shape_eqb_eq in Hlen. simpl in Hlen. injection Hlen as Hlen.
  apply bind_ok in H. destruct H as (u2 & w2 & _ & H).
  apply bind_ok in H. destruct H as (diff & w3 & Hdiff & H).
  apply lift_ok in Hdiff. destruct Hdiff as (Hdiff & ->).
  unfold np.sub in Hdiff. rewrite (broadcast_vectors _ _ _ Hlen) in Hdiff.
  injection Hdiff as <-.
  apply bind_ok in H. destruct H as (c & w4 & _ & H).
  apply bind_ok in H. destruct H as (covmean & w5 & _ & H).
  apply bind_ok in H. destruct H as (trc & w6 & Htrc & H).
  apply lift_ok in Htrc. destruct Htrc as (Htrc & _).
  apply trace_ok in Htrc. destruct Htrc as (xc & ->).
  apply bind_ok in H. destruct H as (dd & w7 & Hdd & H).
  apply lift_ok in Hdd. destruct Hdd as (Hdd & _).
  rewrite dot_vector_self in Hdd. injection Hdd as <-.
  apply bind_ok in H. destruct H as (tr1 & w8 & Htr1 & H).
  apply lift_ok in Htr1. destruct Htr1 as (Htr1 & _).
  apply trace_ok in Htr1. destruct Htr1 as (x1 & ->).
  apply bind_ok in H. destruct H as (r1 & w9 & Hr1 & H).
  apply lift_ok in Hr1. destruct Hr1 as (Hr1 & _).
  unfold np.add in Hr1. rewrite broadcast_scalars in Hr1. injection Hr1 as <-.
  apply bind_ok in H. destruct H as (tr2 & w10 & Htr2 & H).
  apply lift_ok in Htr2. destruct Htr2 as (Htr2 & _).
  apply trace_ok in Htr2. destruct Htr2 as (x2 & ->).
  apply bind_ok in H. destruct H as (r2 & w11 & Hr2 & H).
  apply lift_ok in Hr2. destruct Hr2 as (Hr2 & _).
  unfold np.add in Hr2. rewrite broadcast_scalars in Hr2. injection Hr2 as <-.
  apply bind_ok in H. destruct H as (twice & w12 & Htw & H).
  apply lift_ok in Htw. destruct Htw as (Htw & _).
  unfold np.mul in Htw. rewrite broadcast_scalars in Htw. injection Htw as <-.
  apply lift_ok in H. destruct H as (H & _).
  unfold np.sub in H. rewrite broadcast_scalars in H. injection H as <-.
  eauto.
Qed.

(** C6. [calculate_fid] runs [calculate_activation_statistics], hands the two
    pairs of statistics to [calculate_frechet_distance] with the default
    [eps], and converts its value with [.item()]; an exception of either
    stage is the outcome of the whole.  The value that reaches [.item()] is a
    zero-dimensional array, so the conversion never fails and the result is
    its single float. *)
Theorem fid_is_composition (dataloader : list (tensor * tensor)) (w : World G) :
  calculate_fid lib randn sqrtm calc_z_shapes config dataloader reverse inception w
  = match calculate_activation_statistics lib randn calc_z_shapes config dataloader
                                          reverse inception w with
    | (Ok (m1, s1, m2, s2), w1) =>
        match calculate_frechet_distance lib sqrtm m1 s1 m2 s2 eps_default w1 with
        | (Ok fid_value, w2) => (np.item fid_value, w2)
        | (Raise e, w2) => (Raise e, w2)
        end
    | (Raise e, w1) => (Raise e, w1)
    end
  /\ forall m1 s1 m2 s2 w1 fid_value w2,
       calculate_activation_statistics lib randn calc_z_shapes config dataloader
                                       reverse inception w
       = (Ok (m1, s1, m2, s2), w1) ->
       calculate_frechet_distance lib sqrtm m1 s1 m2 s2 eps_default w1
       = (Ok fid_value, w2) ->
       exists x : float,
         fid_value = Arr0 x
         /\ calculate_fid lib randn sqrtm calc_z_shapes config dataloader
                         reverse inception w
            = (Ok x, w2).
Proof.
  assert (E : calculate_fid lib randn sqrtm calc_z_shapes config dataloader
                            reverse inception w
              = match calculate_activation_statistics lib randn calc_z_shapes config
                        dataloader reverse inception w with
                | (Ok (m1, s1, m2, s2), w1) =>
                    match calculate_frechet_distance lib sqrtm m1 s1 m2 s2
                            eps_default w1 with
                    | (Ok fid_value, w2) => (np.item fid_value, w2)
                    | (Raise e, w2) => (Raise e, w2)
                    end
                | (Raise e, w1) => (Raise e, w1)
                end).
  { unfold calculate_fid. unfold bind at 1.
    destruct (calculate_activation_statistics lib randn calc_z_shapes config
                dataloader reverse inception w)
      as [[[[[m1 s1] m2] s2]|e] w1]; [|reflexivity].
    unfold bind.
    destruct (calculate_frechet_distance lib sqrtm m1 s1 m2 s2 eps_default w1)
      as [[v|e] w2]; reflexivity. }
  split; [exact E|].
  intros m1 s1 m2 s2 w1 v w2 Hs Hf. rewrite E, Hs, Hf.
  apply statistics_ok in Hs. destruct Hs as (td & ad & _ & Hm1 & Hm2 & _).
  apply mean_axis1_ok in Hm1, Hm2.
  destruct Hm1 as (n1 & k1 & b1 & _ & v1 & -> & _).
  destruct Hm2 as (n2 & k2 & b2 & _ & v2 & -> & _).
  apply frechet_returns_scalar in Hf. destruct Hf as (x & ->).
  exists x. split; reflexivity.
Qed.

(** *** Edge cases of the statistics *)

(** X4. On an empty dataloader the statistics and [calculate_fid] raise the
    [RuntimeError] of [torch.stack] on an empty list, and nothing has been
    called; the statistics return only on a non-empty dataloader and with a
    positive [batch]. *)
Theorem empty_dataloader_rejected :
  (forall w : World G,
     calculate_activation_statistics lib randn calc_z_shapes config []
                                     reverse inception w
     = (Raise (RuntimeError StackEmpty), w)
     /\ calculate_fid lib randn sqrtm calc_z_shapes config [] reverse inception w
        = (Raise (RuntimeError StackEmpty), w))
  /\ (forall (dataloader : list (tensor * tensor)) (w w' : World G) stats,
        calculate_activation_statistics lib randn calc_z_shapes config dataloader
                                        reverse inception w
        = (Ok stats, w') ->
        dataloader <> [] /\ 0 < batch config).
Proof.
  split.
  - intros w. split; reflexivity.
  - intros dataloader w w' [[[m1 s1] m2] s2] H.
    apply statistics_ok in H. destruct H as (td & ad & Hst & _).
    split.
    + intros ->. discriminate Hst.
    + apply stacked_features_ok in Hst. now destruct Hst as (_ & _ & _ & _ & Hbs & _).
Qed.

(** X5. The labels of the dataloader are never read: two dataloaders with the
    same images give the same statistics and the same distance. *)
Theorem labels_are_ignored (dl1 dl2 : list (tensor * tensor)) (w : World G) :
  map fst dl1 = map fst dl2 ->
  calculate_activation_statistics lib randn calc_z_shapes config dl1
                                  reverse inception w
  = calculate_activation_statistics lib randn calc_z_shapes config dl2
                                    reverse inception w
  /\ calculate_fid lib randn sqrtm calc_z_shapes config dl1 reverse inception w
     = calculate_fid lib randn sqrtm calc_z_shapes config dl2 reverse inception w.
Proof.
  intros Himg.
  assert (Hloop : forall l1 l2, map fst l1 = map fst l2 ->
            forall st w0,
              for_each l1 (batch_step lib randn calc_z_shapes config reverse inception)
                       st w0
              = for_each l2 (batch_step lib randn calc_z_shapes config reverse inception)
                         st w0).
  { induction l1 as [|[i1 b1] l1 IH]; intros [|[i2 b2] l2] E st w0;
      try discriminate; [reflexivity|].
    simpl in E. injection E as -> E. cbn [for_each]. unfold bind.
    change (batch_step lib randn calc_z_shapes config reverse inception (i2, b1) st w0)
      with (batch_step lib randn calc_z_shapes config reverse inception (i2, b2) st w0).
    destruct (batch_step lib randn calc_z_shapes config reverse inception (i2, b2) st w0)
      as [[st'|e] w1]; [|reflexivity].
    apply IH, E. }
  assert (Hlen : length dl1 = length dl2).
  { rewrite <- (length_map fst dl1), <- (length_map fst dl2). now rewrite Himg. }
  assert (Hst : stacked_features lib randn calc_z_shapes config dl1 reverse inception w
                = stacked_features lib randn calc_z_shapes config dl2 reverse inception w).
  { unfold stacked_features. unfold bind at 1 6.
    rewrite (Hloop dl1 dl2 Himg), Hlen. reflexivity. }
  assert (Hs : calculate_activation_statistics lib randn calc_z_shapes config dl1
                 reverse inception w
               = calculate_activation_statistics lib randn calc_z_shapes config dl2
                   reverse inception w).
  { unfold calculate_activation_statistics. unfold bind at 1 4.
    now rewrite Hst. }
  split; [exact Hs|].
  unfold calculate_fid. unfold bind at 1 4. now rewrite Hs.
Qed.

(** *** The exceptions of the statistics *)

Lemma raises_only_lift (p : exn -> bool) A (r : result A) :
  match r with Ok _ => True | Raise e => p e = true end ->
  raises_only (G:=G) p (lift r).
Proof. intros H w. exact H. Qed.

Lemma raises_only_ret (p : exn -> bool) A (a : A) : raises_only (G:=G) p (ret a).
Proof. intros w. exact I. Qed.

Lemma raises_only_bind (p : exn -> bool) A B (c : M G A) (k : A -> M G B) :
  raises_only p c -> (forall a, raises_only p (k a)) -> raises_only p (bind c k).
Proof.
  intros Hc Hk w. unfold bind. specialize (Hc w).
  destruct (c w) as [[a|e] w1]; simpl in *; auto. apply Hk.
Qed.

Lemma raises_only_for_each (p : exn -> bool) A S
      (body : A -> S -> M G S) (l : list A) :
  (forall a s, raises_only p (body a s)) ->
  forall s, raises_only p (for_each l body s).
Proof.
  intros Hb. induction l as [|a l IH]; intros s; simpl.
  - apply raises_only_ret.
  - apply raises_only_bind; [apply Hb|exact IH].
Qed.

Lemma reshape_rows_error (rows : nat) (t : tensor) :
  match torch.reshape_rows rows t with
  | Ok _ => True
  | Raise e => is_torch_error e = true
  end.
Proof. unfold torch.reshape_rows. destruct (_ || _); simpl; auto. Qed.

Lemma stack_error (l : list tensor) :
  match torch.stack l with Ok _ => True | Raise e => is_torch_error e = true end.
Proof.
  unfold torch.stack. destruct l as [|t rest]; simpl; auto.
  destruct (torch.first_unequal _ _); simpl; auto.
Qed.

Lemma view_rows_numpy_error (rows : nat) (t : tensor) :
  match torch.view_rows_numpy rows t with
  | Ok _ => True
  | Raise e => is_torch_error e = true
  end.
Proof.
  unfold torch.view_rows_numpy. pose proof (reshape_rows_error rows t) as H.
  destruct (torch.reshape_rows rows t); simpl; auto.
Qed.

Lemma call_inception_error (x : tensor) :
  raises_only is_torch_error (call_inception (G:=G) inception x).
Proof.
  intros w. unfold call_inception, bind, emit. simpl.
  destruct (inception x); simpl; auto.
Qed.

Lemma sample_z_error :
  raises_only is_torch_error (sample_z lib randn calc_z_shapes config).
Proof. intros w. rewrite sample_z_draws. exact I. Qed.

Lemma batch_step_error (item : tensor * tensor) (vecs : list tensor * list tensor) :
  raises_only is_torch_error
    (batch_step lib randn calc_z_shapes config reverse inception item vecs).
Proof.
  destruct item as [image label], vecs as [tvs avs]. unfold batch_step.
  apply raises_only_bind; [apply call_inception_error|intros f].
  apply raises_only_bind;
    [apply raises_only_lift, reshape_rows_error|intros tv].
  apply raises_only_bind; [apply sample_z_error|intros zs].
  apply raises_only_bind; [intros w; exact I|intros pics].
  apply raises_only_bind;
    [destruct (0 <? _); intros w; exact I|intros u].
  apply raises_only_bind; [apply call_inception_error|intros g].
  apply raises_only_bind;
    [apply raises_only_lift, reshape_rows_error|intros av].
  apply raises_only_ret.
Qed.

Lemma stacked_features_error (dataloader : list (tensor * tensor)) :
  raises_only is_torch_error
    (stacked_features lib randn calc_z_shapes config dataloader reverse inception).
Proof.
  unfold stacked_features.
  apply raises_only_bind;
    [apply raises_only_for_each; intros a s; apply batch_step_error|].
  intros [tvs avs].
  apply raises_only_bind; [apply raises_only_lift, stack_error|intros t].
  apply raises_only_bind;
    [apply raises_only_lift, view_rows_numpy_error|intros td].
  apply raises_only_bind; [apply raises_only_lift, stack_error|intros a].
  apply raises_only_bind;
    [apply raises_only_lift, view_rows_numpy_error|intros ad].
  apply raises_only_ret.
Qed.

(** The statistics of a run whose stacking stage went through. *)
Lemma statistics_of_stacked (dataloader : list (tensor * tensor))
      (w w' : World G) (true_data ae_data : ndarray) :
  stacked_features lib randn calc_z_shapes config dataloader reverse inception w
  = (Ok (true_data, ae_data), w') ->
  exists mu1 mu2,
    np.mean_axis1 lib true_data = Ok mu1
    /\ np.mean_axis1 lib ae_data = Ok mu2
    /\ calculate_activation_statistics lib randn calc_z_shapes config dataloader
                                       reverse inception w
       = (Ok (mu1, np.cov_rowvar_false lib true_data,
              mu2, np.cov_rowvar_false lib ae_data), w').
Proof.
  intros H. unfold calculate_activation_statistics. unfold bind at 1. rewrite H.
  apply stacked_features_ok in H. destruct H as (c1 & c2 & -> & -> & _).
  eexists _, _. repeat split.
Qed.

Lemma statistics_errors (dataloader : list (tensor * tensor)) :
  raises_only is_torch_error
    (calculate_activation_statistics lib randn calc_z_shapes config dataloader
                                     reverse inception).
Proof.
  intros w.
  pose proof (stacked_features_error dataloader w) as He.
  destruct (stacked_features lib randn calc_z_shapes config dataloader reverse inception w)
    as [[[td ad]|e] w1] eqn:H.
  - destruct (statistics_of_stacked _ _ H) as (mu1 & mu2 & _ & _ & ->). exact I.
  - unfold calculate_activation_statistics. unfold bind at 1. rewrite H. exact He.
Qed.

(** X6. The statistics stage raises nothing but the errors of torch
    ([RuntimeError] from [reshape], [stack] or [view]) and the [IndexError]
    of indexing an empty classifier result: never an [AssertionError] or a
    [ValueError]. *)
Theorem statistics_raise_torch_errors_only (dataloader : list (tensor * tensor)) :
  raises_only is_torch_error
    (calculate_activation_statistics lib randn calc_z_shapes config dataloader
                                     reverse inception).
Proof. apply statistics_errors. Qed.

(** *** The asserts inside [calculate_fid] *)

Lemma cov_shape (n m : nat) (d : list float) :
  np.shape (np.atleast_2d (np.cov_rowvar_false lib (Arr2 n m d))) = [m; m].
Proof.
  unfold np.cov_rowvar_false.
  destruct m as [|[|m]]; reflexivity.
Qed.

Lemma item_not_assertion (v : ndarray) (msg : string) :
  np.item v <> Raise (AssertionError msg).
Proof.
  unfold np.item. destruct (np.data v) as [|x [|y l]]; discriminate.
Qed.

(** X7. When the two stacked feature arrays differ in their number of
    columns, [calculate_fid] ends in the second assert of the distance,
    'Training and test covariances have different dimensions', right after
    the statistics: the square root is not called. *)
Theorem unequal_feature_widths_rejected
        (dataloader : list (tensor * tensor)) (w w' : World G)
        (r1 c1 r2 c2 : nat) (d1 d2 : list float) :
  stacked_features lib randn calc_z_shapes config dataloader reverse inception w
  = (Ok (Arr2 r1 c1 d1, Arr2 r2 c2 d2), w') ->
  c1 <> c2 ->
  calculate_fid lib randn sqrtm calc_z_shapes config dataloader reverse inception w
  = (Raise (AssertionError
              "Training and test covariances have different dimensions"), w').
Proof.
  intros H Hc.
  destruct (statistics_of_stacked _ _ H) as (mu1 & mu2 & Hm1 & Hm2 & Hs).
  pose proof (stacked_features_ok _ _ H) as (k1 & k2 & E1 & E2 & _).
  injection E1 as -> _ _. injection E2 as -> _ _.
  simpl in Hm1, Hm2. injection Hm1 as <-. injection Hm2 as <-.
  unfold calculate_fid. unfold bind at 1. rewrite Hs.
  unfold bind at 1. unfold calculate_frechet_distance.
  cbn [np.atleast_1d np.shape]. rewrite !length_map, !length_seq.
  rewrite shape_eqb_refl. rewrite !cov_shape.
  destruct (np.shape_eqb [c1; c1] [c2; c2]) eqn:E.
  - apply shape_eqb_eq in E. congruence.
  - reflexivity.
Qed.

(** X8. The first assert of the distance never fires inside [calculate_fid]:
    the two means always have the same length.  An [AssertionError] of
    [calculate_fid] is always the one on the covariances, and it means that
    the stacked feature arrays differ in their number of columns. *)
Theorem fid_assertion_is_about_covariances
        (dataloader : list (tensor * tensor)) (w : World G) (msg : string) :
  fst (calculate_fid lib randn sqrtm calc_z_shapes config dataloader reverse inception w)
  = Raise (AssertionError msg) ->
  msg = "Training and test covariances have different dimensions"%string
  /\ exists r c1 c2 d1 d2 w',
       stacked_features lib randn calc_z_shapes config dataloader reverse inception w
       = (Ok (Arr2 r c1 d1, Arr2 r c2 d2), w')
       /\ c1 <> c2.
Proof.
  intros H. unfold calculate_fid in H. unfold bind at 1 in H.
  pose proof (statistics_errors dataloader w) as He.
  destruct (calculate_activation_statistics lib randn calc_z_shapes config dataloader
              reverse inception w) as [[[[[m1 s1] m2] s2]|e] w1] eqn:Hs.
  - apply statistics_ok in Hs.
    destruct Hs as (td & ad & Hst & Hm1 & Hm2 & -> & ->).
    pose proof (stacked_features_ok _ _ Hst) as (c1 & c2 & -> & -> & _).
    simpl in Hm1, Hm2. injection Hm1 as <-. injection Hm2 as <-.
    unfold bind at 1 in H.
    match type of H with
      fst (match ?c with _ => _ end) = _ => destruct c as [[v|e] w2] eqn:Hf
    end.
    + simpl in H. unfold lift in H. simpl in H. now apply item_not_assertion in H.
    + simpl in H. injection H as ->.
      pose proof (f_equal fst Hf) as Hf'. cbn [fst] in Hf'.
      apply frechet_assertion in Hf'. destruct Hf' as [[Hne _]|[Hne ->]].
      * exfalso. apply Hne. simpl. now rewrite !length_map, !length_seq.
      * split; [reflexivity|]. rewrite !cov_shape in Hne.
        eexists _, c1, c2, _, _, _. split; [exact Hst|]. congruence.
  - simpl in H. injection H as ->. simpl in He. discriminate.
Qed.

(** *** How often the outside world is called *)

Lemma count_app (p : event -> bool) (l1 l2 : list event) :
  count p (l1 ++ l2) = count p l1 + count p l2.
Proof. unfold count. now rewrite filter_app, length_app. Qed.

Lemma count_randn_requests (l : list (list nat)) :
  count is_randn_call (map EvRandn l) = length l
  /\ count is_inception_call (map EvRandn l) = 0
  /\ count is_reverse_call (map EvRandn l) = 0
  /\ count is_sqrtm_call (map EvRandn l) = 0.
Proof.
  unfold count. induction l as [|x l (H1 & H2 & H3 & H4)]; simpl; auto.
Qed.

Lemma count_nan_report (pics : tensor) :
  count is_randn_call (nan_report pics) = 0
  /\ count is_inception_call (nan_report pics) = 0
  /\ count is_reverse_call (nan_report pics) = 0
  /\ count is_sqrtm_call (nan_report pics) = 0.
Proof. unfold nan_report. destruct (0 <? _); auto. Qed.

Lemma count_batch_events (image : tensor) (g : G) :
  let events := fst (batch_events lib randn calc_z_shapes config reverse image g) in
  count is_randn_call events = length (latent_shapes calc_z_shapes config)
  /\ count is_inception_call events = 2
  /\ count is_reverse_call events = 1
  /\ count is_sqrtm_call events = 0.
Proof.
  unfold batch_events.
  destruct (draw_latents lib randn (temp config)
              (latent_shapes calc_z_shapes config) g) as [zs g'].
  cbn [fst]. rewrite !count_app.
  destruct (count_randn_requests (latent_shapes calc_z_shapes config))
    as (-> & -> & -> & ->).
  destruct (count_nan_report (reverse zs)) as (-> & -> & -> & ->).
  cbn. repeat split; lia.
Qed.

Lemma count_loader_events :
  forall (dataloader : list (tensor * tensor)) (g : G),
  let events := fst (loader_events lib randn calc_z_shapes config reverse dataloader g) in
  count is_randn_call events
  = length dataloader * length (latent_shapes calc_z_shapes config)
  /\ count is_inception_call events = 2 * length dataloader
  /\ count is_reverse_call events = length dataloader
  /\ count is_sqrtm_call events = 0.
Proof.
  induction dataloader as [|[image label] rest IH]; intros g.
  - cbn. auto.
  - cbn [loader_events].
    pose proof (count_batch_events image g) as Hb. cbv zeta in Hb.
    destruct (batch_events lib randn calc_z_shapes config reverse image g) as [e1 g1].
    specialize (IH g1). cbv zeta in IH.
    destruct (loader_events lib randn calc_z_shapes config reverse rest g1) as [e2 g2].
    cbn [fst] in *. rewrite !count_app.
    destruct Hb as (-> & -> & -> & ->). destruct IH as (-> & -> & -> & ->).
    cbn [length]. repeat split; lia.
Qed.

(** X9. A run of the statistics that goes through has called the classifier
    exactly twice per batch, [model.reverse] exactly once per batch and
    [torch.randn] exactly once per batch and latent shape of
    [calc_z_shapes]; it has not called the matrix square root. *)
Theorem calls_per_run
        (dataloader : list (tensor * tensor)) (w w' : World G)
        (stats : ndarray * ndarray * ndarray * ndarray) :
  calculate_activation_statistics lib randn calc_z_shapes config dataloader
                                  reverse inception w
  = (Ok stats, w') ->
  exists events,
    trace w' = trace w ++ events
    /\ count is_inception_call events = 2 * length dataloader
    /\ count is_reverse_call events = length dataloader
    /\ count is_randn_call events
       = length dataloader
         * length (calc_z_shapes 3 (img_size config) (n_flow config) (n_block config))
    /\ count is_sqrtm_call events = 0.
Proof.
  intros H. destruct stats as [[[m1 s1] m2] s2].
  apply statistics_ok in H. destruct H as (td & ad & Hst & _).
  apply stacked_features_ok in Hst. destruct Hst as (_ & _ & _ & _ & _ & ->).
  pose proof (count_loader_events dataloader (rng w)) as Hc. cbv zeta in Hc.
  unfold latent_shapes in Hc at 1. rewrite length_map in Hc.
  destruct Hc as (Hr & Hi & Hv & Hs).
  eexists. split; [reflexivity|]. repeat split; assumption.
Qed.

(** *** The whole run *)

(** X10. When [calculate_fid] returns a value, its events are those of the
    loop over the dataloader followed by one call of the matrix square root,
    or by a call, the message and a second call; the distance stage leaves
    the random generator where the statistics left it. *)
Theorem fid_events
        (dataloader : list (tensor * tensor)) (w w' : World G) (x : float) :
  calculate_fid lib randn sqrtm calc_z_shapes config dataloader reverse inception w
  = (Ok x, w') ->
  rng w'
  = snd (loader_events lib randn calc_z_shapes config reverse dataloader (rng w))
  /\ exists P later,
       trace w'
       = trace w
           ++ fst (loader_events lib randn calc_z_shapes config reverse dataloader (rng w))
           ++ EvSqrtm P :: later
       /\ (later = []
           \/ exists P', later = [EvPrint (MsgSingular eps_default); EvSqrtm P']).
Proof.
  intros H. unfold calculate_fid in H.
  apply bind_ok in H. destruct H as ([[[m1 s1] m2] s2] & w1 & Hs & H).
  apply bind_ok in H. destruct H as (v & w2 & Hf & H).
  apply lift_ok in H. destruct H as (_ & ->).
  apply statistics_ok in Hs. destruct Hs as (td & ad & Hst & _).
  apply stacked_features_ok in Hst. destruct Hst as (_ & _ & _ & _ & _ & ->).
  destruct (frechet_world lib sqrtm m1 s1 m2 s2 eps_default
              (advance w (loader_events lib randn calc_z_shapes config reverse dataloader)))
    as [[_ Hok]|[(P & _ & E)|(P & P' & _ & E)]].
  - rewrite Hf in Hok. discriminate.
  - rewrite Hf in E. cbn [snd] in E. subst w2. split; [reflexivity|].
    exists P, []. split; [|now left]. unfold after, advance. cbn.
    now rewrite <- app_assoc.
  - rewrite Hf in E. cbn [snd] in E. subst w2. split; [reflexivity|].
    exists P, [EvPrint (MsgSingular eps_default); EvSqrtm P'].
    split; [|right; eauto]. unfold after, advance. cbn.
    now rewrite <- app_assoc.
Qed.

(** *** Well-formed arrays *)

Lemma reshape_rows_wf (rows : nat) (t t' : tensor) :
  torch.reshape_rows rows t = Ok t' -> torch.wf t -> torch.wf t'.
Proof.
  intros H Hwf. apply reshape_rows_data in H.
  destruct H as (Hd & Hs & Hpos & Hmod).
  unfold torch.wf in *. rewrite Hd, Hs, Hwf. simpl.
  rewrite Nat.mul_1_r.
  apply Nat.Div0.div_exact in Hmod. exact Hmod.
Qed.

Lemma length_concat_uniform (k : nat) (l : list tensor) :
  Forall (fun u => length (tdata u) = k) l ->
  length (concat (map tdata l)) = length l * k.
Proof.
  induction 1 as [|u l Hu Hl IH]; [reflexivity|].
  cbn [map concat length]. rewrite length_app, IH, Hu. lia.
Qed.

Lemma stack_wf (l : list tensor) (t : tensor) :
  torch.stack l = Ok t -> Forall torch.wf l -> torch.wf t.
Proof.
  unfold torch.stack. destruct l as [|t0 rest]; [discriminate|].
  destruct (torch.first_unequal (tshape t0) rest) eqn:E; [discriminate|].
  intros H Hwf. injection H as <-. unfold torch.wf. cbn [tdata tshape].
  assert (Hall : Forall (fun u => length (tdata u) = torch.numel (tshape t0))
                        (t0 :: rest)).
  { apply Forall_forall. intros u Hu. rewrite Forall_forall in Hwf.
    specialize (Hwf u Hu). destruct Hu as [<-|Hu]; [exact Hwf|].
    unfold torch.first_unequal in E.
    pose proof (find_none _ _ E u Hu) as Hn. cbn in Hn.
    apply negb_false_iff in Hn. unfold torch.shape_eqb in Hn.
    destruct (list_eq_dec Nat.eq_dec (tshape u) (tshape t0)) as [Es|];
      [|discriminate].
    unfold torch.wf in Hwf. now rewrite Hwf, Es. }
  transitivity (length (concat (map tdata (t0 :: rest)))); [reflexivity|].
  rewrite (length_concat_uniform Hall). reflexivity.
Qed.

Lemma view_rows_numpy_wf (rows : nat) (t : tensor) (a : ndarray) :
  torch.view_rows_numpy rows t = Ok a -> torch.wf t -> np.wf a.
Proof.
  intros H Hwf. unfold torch.view_rows_numpy in H.
  destruct (torch.reshape_rows rows t) as [t'|e] eqn:E; [|discriminate].
  injection H as <-. pose proof (reshape_rows_wf _ E Hwf) as Hwf'.
  apply reshape_rows_data in E. destruct E as (_ & Hs & _).
  unfold torch.wf in Hwf'. rewrite Hs in Hwf'. simpl in Hwf'.
  unfold np.wf. rewrite Hwf'. lia.
Qed.

Lemma call_inception_wf (x f : tensor) (w w' : World G) :
  (forall y g gs, inception y = g :: gs -> torch.wf g) ->
  call_inception inception x w = (Ok f, w') -> torch.wf f.
Proof.
  intros Hinc. unfold call_inception, bind, emit. simpl.
  destruct (inception x) as [|f0 fs] eqn:E; [discriminate|].
  unfold ret. intros H. injection H as <- _. exact (Hinc _ _ _ E).
Qed.

Lemma loader_loop_wf :
  (forall y g gs, inception y = g :: gs -> torch.wf g) ->
  forall (dataloader : list (tensor * tensor)) (tvs avs : list tensor)
         (w w' : World G) (vecs : list tensor * list tensor),
  for_each dataloader
           (batch_step lib randn calc_z_shapes config reverse inception)
           (tvs, avs) w
  = (Ok vecs, w') ->
  Forall torch.wf tvs -> Forall torch.wf avs ->
  Forall torch.wf (fst vecs) /\ Forall torch.wf (snd vecs).
Proof.
  intros Hinc.
  induction dataloader as [|[image label] rest IH]; intros tvs avs w w' vecs H Ht Ha.
  - simpl in H. apply ret_ok in H. destruct H as (-> & _). split; assumption.
  - cbn [for_each] in H. apply bind_ok in H. destruct H as (v1 & w1 & H1 & H).
    unfold batch_step in H1.
    apply bind_ok in H1. destruct H1 as (f & u1 & Hf & H1).
    apply call_inception_wf in Hf; [|exact Hinc].
    apply bind_ok in H1. destruct H1 as (tv & u2 & Htv & H1).
    apply lift_ok in Htv. destruct Htv as (Htv & _).
    apply reshape_rows_wf in Htv; [|exact Hf].
    apply bind_ok in H1. destruct H1 as (zs & u3 & _ & H1).
    apply bind_ok in H1. destruct H1 as (pics & u4 & _ & H1).
    apply bind_ok in H1. destruct H1 as (u & u5 & _ & H1).
    apply bind_ok in H1. destruct H1 as (g & u6 & Hg & H1).
    apply call_inception_wf in Hg; [|exact Hinc].
    apply bind_ok in H1. destruct H1 as (av & u7 & Hav & H1).
    apply lift_ok in Hav. destruct Hav as (Hav & _).
    apply reshape_rows_wf in Hav; [|exact Hg].
    apply ret_ok in H1. destruct H1 as (-> & _).
    apply (IH _ _ _ _ _ H); apply Forall_app; split; auto.
Qed.

(** X11. With a classifier that returns tensors holding as many entries as
    their shape announces, the two stacked feature arrays are well formed:
    stacking and viewing neither drop nor invent an entry, and each array
    holds exactly rows times columns entries. *)
Theorem stacked_arrays_well_formed
        (dataloader : list (tensor * tensor)) (w w' : World G)
        (true_data ae_data : ndarray) :
  (forall y g gs, inception y = g :: gs -> torch.wf g) ->
  stacked_features lib randn calc_z_shapes config dataloader reverse inception w
  = (Ok (true_data, ae_data), w') ->
  np.wf true_data /\ np.wf ae_data.
Proof.
  intros Hinc H. unfold stacked_features in H.
  apply bind_ok in H. destruct H as ([tvs avs] & w1 & Hloop & H).
  apply (loader_loop_wf Hinc) in Hloop; [|constructor|constructor].
  destruct Hloop as (Ht & Ha). cbn [fst snd] in Ht, Ha.
  apply bind_ok in H. destruct H as (t & w2 & Hst & H).
  apply lift_ok in Hst. destruct Hst as (Hst & _).
  apply bind_ok in H. destruct H as (td & w3 & Htd & H).
  apply lift_ok in Htd. destruct Htd as (Htd & _).
  apply bind_ok in H. destruct H as (a & w4 & Hsa & H).
  apply lift_ok in Hsa. destruct Hsa as (Hsa & _).
  apply bind_ok in H. destruct H as (ad & w5 & Had & H).
  apply lift_ok in Had. destruct Had as (Had & _).
  apply ret_ok in H. destruct H as (H & _). injection H as -> ->.
  split.
  - eapply view_rows_numpy_wf; [exact Htd|]. eapply stack_wf; eassumption.
  - eapply view_rows_numpy_wf; [exact Had|]. eapply stack_wf; eassumption.
Qed.

(** *** What the run asks of the batches *)

Lemma loader_loop_shapes :
  forall (dataloader : list (tensor * tensor)) (tvs avs : list tensor)
         (w w' : World G) (vecs : list tensor * list tensor),
  for_each dataloader
           (batch_step lib randn calc_z_shapes config reverse inception)
           (tvs, avs) w
  = (Ok vecs, w') ->
  exists tvs',
    fst vecs = tvs ++ tvs'
    /\ Forall (fun item =>
                 feature_entries inception (fst item) mod batch config = 0
                 /\ exists tv,
                      In tv tvs'
                      /\ tshape tv
                         = [batch config;
                            feature_entries inception (fst item) / batch config])
              dataloader.
Proof.
  induction dataloader as [|[image label] rest IH]; intros tvs avs w w' vecs H.
  - simpl in H. apply ret_ok in H. destruct H as (-> & _).
    exists []. simpl. rewrite app_nil_r. split; [reflexivity|constructor].
  - cbn [for_each] in H. apply bind_ok in H. destruct H as (v1 & w1 & H1 & H).
    unfold batch_step in H1.
    apply bind_ok in H1. destruct H1 as (f & u1 & Hf & H1).
    apply call_inception_entries in Hf.
    apply bind_ok in H1. destruct H1 as (tv & u2 & Htv & H1).
    apply lift_ok in Htv. destruct Htv as (Htv & _).
    apply reshape_rows_data in Htv. destruct Htv as (_ & Hshape & _ & Hmod).
    rewrite Hf in Hshape, Hmod.
    apply bind_ok in H1. destruct H1 as (zs & u3 & _ & H1).
    apply bind_ok in H1. destruct H1 as (pics & u4 & _ & H1).
    apply bind_ok in H1. destruct H1 as (u & u5 & _ & H1).
    apply bind_ok in H1. destruct H1 as (g & u6 & _ & H1).
    apply bind_ok in H1. destruct H1 as (av & u7 & _ & H1).
    apply ret_ok in H1. destruct H1 as (-> & _).
    apply IH in H. destruct H as (tvs' & E & Hall).
    exists (tv :: tvs'). split.
    + rewrite E, <- app_assoc. reflexivity.
    + constructor.
      * split; [exact Hmod|]. exists tv. split; [now left|exact Hshape].
      * eapply Forall_impl; [|exact Hall].
        intros item (Hm & tv' & Hin & Hs). split; [exact Hm|].
        exists tv'. split; [now right|exact Hs].
Qed.

Lemma stack_same_shapes (l : list tensor) (t : tensor) :
  torch.stack l = Ok t ->
  forall u v, In u l -> In v l -> tshape u = tshape v.
Proof.
  unfold torch.stack. destruct l as [|t0 rest]; [discriminate|].
  destruct (torch.first_unequal (tshape t0) rest) eqn:E; [discriminate|].
  intros _.
  assert (H0 : forall u, In u (t0 :: rest) -> tshape u = tshape t0).
  { intros u [<-|Hu]; [reflexivity|].
    unfold torch.first_unequal in E.
    pose proof (find_none _ _ E u Hu) as Hn. cbn in Hn.
    apply negb_false_iff in Hn. unfold torch.shape_eqb in Hn.
    now destruct (list_eq_dec Nat.eq_dec (tshape u) (tshape t0)). }
  intros u v Hu Hv. now rewrite (H0 u Hu), (H0 v Hv).
Qed.

(** X12. The statistics return only if every batch of the dataloader makes
    the classifier return the same number of feature entries, a multiple of
    [batch]: the images of a batch may be of any number, but a batch whose
    features differ in number from those of another batch makes the run
    fail. *)
Theorem batches_yield_equal_entries
        (dataloader : list (tensor * tensor)) (w w' : World G)
        (stats : ndarray * ndarray * ndarray * ndarray) :
  calculate_activation_statistics lib randn calc_z_shapes config dataloader
                                  reverse inception w
  = (Ok stats, w') ->
  forall item1 item2,
    In item1 dataloader -> In item2 dataloader ->
    feature_entries inception (fst item1) = feature_entries inception (fst item2)
    /\ feature_entries inception (fst item1) mod batch config = 0.
Proof.
  intros H item1 item2 H1 H2. destruct stats as [[[m1 s1] m2] s2].
  apply statistics_ok in H. destruct H as (td & ad & Hst & _).
  pose proof (stacked_features_ok _ _ Hst) as (_ & _ & _ & _ & Hbs & _).
  unfold stacked_features in Hst.
  apply bind_ok in Hst. destruct Hst as ([tvs avs] & w1 & Hloop & Hst).
  apply loader_loop_shapes in Hloop. destruct Hloop as (tvs' & E & Hall).
  cbn [fst app] in E. subst tvs'.
  apply bind_ok in Hst. destruct Hst as (t & w2 & Hstack & _).
  apply lift_ok in Hstack. destruct Hstack as (Hstack & _).
  rewrite Forall_forall in Hall.
  destruct (Hall _ H1) as (Hm1 & tv1 & In1 & S1).
  destruct (Hall _ H2) as (Hm2 & tv2 & In2 & S2).
  split; [|exact Hm1].
  pose proof (stack_same_shapes _ Hstack _ _ In1 In2) as Es.
  rewrite S1, S2 in Es. injection Es as Ed.
  rewrite (Nat.div_mod_eq (feature_entries inception (fst item1)) (batch config)).
  rewrite (Nat.div_mod_eq (feature_entries inception (fst item2)) (batch config)).
  now rewrite Hm1, Hm2, Ed.
Qed.

(** X13. The shapes of what the statistics return: both means have
    [batch * len(dataloader)] entries, and each covariance, once promoted, is
    square with one row per column of its stacked feature array. *)
Theorem statistics_shapes
        (dataloader : list (tensor * tensor)) (w w' : World G)
        (mu1 s1 mu2 s2 : ndarray) :
  calculate_activation_statistics lib randn calc_z_shapes config dataloader
                                  reverse inception w
  = (Ok (mu1, s1, mu2, s2), w') ->
  exists true_data ae_data c1 c2,
    stacked_features lib randn calc_z_shapes config dataloader reverse inception w
    = (Ok (true_data, ae_data), w')
    /\ np.shape true_data = [batch config * length dataloader; c1]
    /\ np.shape ae_data = [batch config * length dataloader; c2]
    /\ np.shape mu1 = [batch config * length dataloader]
    /\ np.shape mu2 = [batch config * length dataloader]
    /\ np.shape (np.atleast_2d s1) = [c1; c1]
    /\ np.shape (np.atleast_2d s2) = [c2; c2].
Proof.
  intros H. apply statistics_ok in H.
  destruct H as (td & ad & Hst & Hm1 & Hm2 & -> & ->).
  pose proof (stacked_features_ok _ _ Hst) as (c1 & c2 & -> & -> & _).
  simpl in Hm1, Hm2. injection Hm1 as <-. injection Hm2 as <-.
  eexists _, _, c1, c2. split; [exact Hst|].
  rewrite !cov_shape. simpl. rewrite !length_map, !length_seq.
  repeat split.
Qed.

End Statistics.
(** ** Runs on the concrete environment *)


(** C3 twice, on [mu1 = (1, 2)], [mu2 = 0] and [sigma2 = diag(2, 2)].  With
    [sigma1 = diag(2, -2^-23)] the root of the product is
    [diag(2, 2^-11 i)]: the imaginary part, about [4.9e-4], is dropped and
    the value is [5 + (2 - 2^-23) + 4 - 2 * 2].  With
    [sigma1 = diag(2, -1/8)] the root is [diag(2, i/2)]: the function raises,
    carrying [1/2], the largest of the imaginary parts [0, 0, 0, 1/2]. *)
Lemma imaginary_component_check_run :
  calculate_frechet_distance Ref.lib Demo.sqrtm
    (Arr1 [1; 2]%float) (Arr2 2 2 [2; 0; 0; (-0x1p-23)]%float)
    (Arr1 [0; 0]%float) (Arr2 2 2 [2; 0; 0; 2]%float) eps_default Demo.w0
  = (Ok (Arr0 0x1.bfffff8p+2%float),
     after Demo.w0 [EvSqrtm (Arr2 2 2 [4; 0; 0; (-0x1p-22)]%float)])
  /\ calculate_frechet_distance Ref.lib Demo.sqrtm
       (Arr1 [1; 2]%float) (Arr2 2 2 [2; 0; 0; (-0.125)]%float)
       (Arr1 [0; 0]%float) (Arr2 2 2 [2; 0; 0; 2]%float) eps_default Demo.w0
     = (Raise (ValueError (ImaginaryComponent 0.5%float)),
        after Demo.w0 [EvSqrtm (Arr2 2 2 [4; 0; 0; (-0.25)]%float)]).
Proof.
  split.
  - apply (@imaginary_component_check nat Ref.lib Demo.sqrtm
             (Arr1 [1; 2]%float) (Arr2 2 2 [2; 0; 0; (-0x1p-23)]%float)
             (Arr1 [0; 0]%float) (Arr2 2 2 [2; 0; 0; 2]%float) eps_default Demo.w0
             (after Demo.w0 [EvSqrtm (Arr2 2 2 [4; 0; 0; (-0x1p-22)]%float)])
             [1; 2]%float [0; 0]%float 2
             [2; 0; 0; (-0x1p-23)]%float [2; 0; 0; 2]%float
             (Arr2 2 2 [(2, 0); (0, 0); (0, 0); (0, 0x1p-11)]%float));
      reflexivity.
  - apply (@imaginary_component_check nat Ref.lib Demo.sqrtm
             (Arr1 [1; 2]%float) (Arr2 2 2 [2; 0; 0; (-0.125)]%float)
             (Arr1 [0; 0]%float) (Arr2 2 2 [2; 0; 0; 2]%float) eps_default Demo.w0
             (after Demo.w0 [EvSqrtm (Arr2 2 2 [4; 0; 0; (-0.25)]%float)])
             [1; 2]%float [0; 0]%float 2
             [2; 0; 0; (-0.125)]%float [2; 0; 0; 2]%float
             (Arr2 2 2 [(2, 0); (0, 0); (0, 0); (0, 0.5)]%float));
      reflexivity.
Defined.

(** C4 three times, on [sigma1 = [[0, 1], [0, 0]]] and [sigma2 = diag(3, 3)],
    whose product [[0, 3], [0, 0]] has the root [[0, 3/0], [0, 0]], not
    finite.  With [eps = 1] the second call is on
    [[1, 1], [0, 1]] [[4, 0], [0, 4]] = [[4, 4], [0, 4]] and returns
    [[2, 1], [0, 2]].  With [eps = 0] the second call is on the same product
    and returns the same root, which is kept as it is.  With an infinite
    [eps] the regularised product holds NaNs, the second call is refused and
    the function ends in its [ValueError]. *)
Lemma singular_product_retry_run :
  (sqrtm_stable Ref.lib Demo.sqrtm
     (Arr2 2 2 [0; 1; 0; 0]%float) (Arr2 2 2 [3; 0; 0; 3]%float) 1%float Demo.w0
   = (Ok (RealArr (Arr2 2 2 [2; 1; 0; 2]%float)),
      after Demo.w0 [EvSqrtm (Arr2 2 2 [0; 3; 0; 0]%float);
                     EvPrint (MsgSingular 1%float);
                     EvSqrtm (Arr2 2 2 [4; 4; 0; 4]%float)])
   /\ snd (calculate_frechet_distance Ref.lib Demo.sqrtm
             (Arr1 [1; 2]%float) (Arr2 2 2 [0; 1; 0; 0]%float)
             (Arr1 [0; 0]%float) (Arr2 2 2 [3; 0; 0; 3]%float) 1%float Demo.w0)
      = after Demo.w0 [EvSqrtm (Arr2 2 2 [0; 3; 0; 0]%float);
                       EvPrint (MsgSingular 1%float);
                       EvSqrtm (Arr2 2 2 [4; 4; 0; 4]%float)])
  /\ sqrtm_stable Ref.lib Demo.sqrtm
       (Arr2 2 2 [0; 1; 0; 0]%float) (Arr2 2 2 [3; 0; 0; 3]%float) 0%float Demo.w0
     = (Ok (RealArr (Arr2 2 2 [0; infinity; 0; 0]%float)),
        after Demo.w0 [EvSqrtm (Arr2 2 2 [0; 3; 0; 0]%float);
                       EvPrint (MsgSingular 0%float);
                       EvSqrtm (Arr2 2 2 [0; 3; 0; 0]%float)])
  /\ calculate_frechet_distance Ref.lib Demo.sqrtm
       (Arr1 [1; 2]%float) (Arr2 2 2 [0; 1; 0; 0]%float)
       (Arr1 [0; 0]%float) (Arr2 2 2 [3; 0; 0; 3]%float) infinity Demo.w0
     = (Raise (ValueError NotFinite),
        after Demo.w0 [EvSqrtm (Arr2 2 2 [0; 3; 0; 0]%float);
                       EvPrint (MsgSingular infinity);
                       EvSqrtm (Arr2 2 2 [nan; nan; nan; nan]%float)]).
Proof.
  pose proof (fun eps =>
    @singular_product_retry nat Ref.lib Demo.sqrtm
      (Arr1 [1; 2]%float) (Arr2 2 2 [0; 1; 0; 0]%float)
      (Arr1 [0; 0]%float) (Arr2 2 2 [3; 0; 0; 3]%float) eps Demo.w0
      2 [0; 1; 0; 0]%float [3; 0; 0; 3]%float
      (RealArr (Arr2 2 2 [0; infinity; 0; 0]%float))
      eq_refl eq_refl eq_refl eq_refl eq_refl) as H.
  split; [|split].
  - destruct (H 1%float) as (H1 & H2 & _). split; [exact H1|exact H2].
  - exact (proj1 (H 0%float)).
  - exact (proj1 (proj2 (proj2 (H infinity))) NotFinite eq_refl).
Defined.

(** C7 on a dataloader with one batch of three images and [temp = 2]: one
    call of the classifier on the images, one draw of shape [(3, 6, 1, 1)],
    which yields the entries 0 to 17, one call of [model.reverse] on the
    tensor of the doubled entries and one call of the classifier on the
    result; the second pair of statistics is that of the features of these
    pictures. *)
Lemma latent_sampling_per_batch_run :
  mkWorld 18 [EvInception (Tensor [3; 1; 1; 2] [1; 2; 3; 6; 8; 4]%float);
              EvRandn [3; 6; 1; 1];
              EvReverse [Tensor [3; 6; 1; 1]
                           [0; 2; 4; 6; 8; 10; 12; 14; 16; 18; 20; 22; 24; 26;
                            28; 30; 32; 34]%float];
              EvInception (Tensor [3; 6; 1; 1]
                             [0; 2; 4; 6; 8; 10; 12; 14; 16; 18; 20; 22; 24; 26;
                              28; 30; 32; 34]%float)]
  = advance Demo.w0 (loader_events Ref.lib Demo.randn Demo.calc_z_shapes
                                   Demo.config3_temp2 Demo.reverse Demo.loader3)
  /\ exists cols,
       let ae_data :=
         Arr2 (batch Demo.config3_temp2 * length Demo.loader3) cols
              (flat_map (features_of Demo.inception)
                        (generated_pictures Ref.lib Demo.randn Demo.calc_z_shapes
                           Demo.config3_temp2 Demo.reverse
                           (length Demo.loader3) (rng Demo.w0))) in
       np.mean_axis1 Ref.lib ae_data = Ok (Arr1 [15; 57; 99]%float)
       /\ Arr2 2 2 [144; 864; 864; 5184]%float
          = np.cov_rowvar_false Ref.lib ae_data.
Proof.
  assert (H : calculate_activation_statistics Ref.lib Demo.randn Demo.calc_z_shapes
                Demo.config3_temp2 Demo.loader3 Demo.reverse Demo.inception Demo.w0
              = (Ok (Arr1 [2; 6; 10]%float, Arr2 2 2 [13; 15; 15; 21]%float,
                     Arr1 [15; 57; 99]%float,
                     Arr2 2 2 [144; 864; 864; 5184]%float),
                 mkWorld 18
                   [EvInception (Tensor [3; 1; 1; 2] [1; 2; 3; 6; 8; 4]%float);
                    EvRandn [3; 6; 1; 1];
                    EvReverse [Tensor [3; 6; 1; 1]
                                 [0; 2; 4; 6; 8; 10; 12; 14; 16; 18; 20; 22; 24;
                                  26; 28; 30; 32; 34]%float];
                    EvInception (Tensor [3; 6; 1; 1]
                                   [0; 2; 4; 6; 8; 10; 12; 14; 16; 18; 20; 22; 24;
                                    26; 28; 30; 32; 34]%float)]))
    by (vm_compute; reflexivity).
  exact (@latent_sampling_per_batch _ _ _ _ _ _ _ _ _ _ _ _ _ _ H).
Defined.



(** C2 at a run with three samples of two features.  The stacked reference
    features are the rows [(1, 3)], [(3, 9)], [(8, 12)].  The function
    returns as their mean [(2, 6, 10)], the mean of every row, one entry per
    sample; the mean over the samples is [(4, 8)], one entry per feature,
    and the covariance it returns is the 2x2 covariance of the features. *)
Theorem mean_taken_per_sample :
  fst (stacked_features Ref.lib Demo.randn Demo.calc_z_shapes
         Demo.config3 Demo.loader3 Demo.reverse Demo.inception Demo.w0)
  = Ok (Arr2 3 2 [1; 3; 3; 9; 8; 12]%float,
        Arr2 3 2 [0; 15; 6; 51; 12; 87]%float)
  /\ fst (calculate_activation_statistics Ref.lib Demo.randn Demo.calc_z_shapes
            Demo.config3 Demo.loader3 Demo.reverse Demo.inception Demo.w0)
     = Ok (Arr1 [2; 6; 10]%float, Arr2 2 2 [13; 15; 15; 21]%float,
           Arr1 [7.5; 28.5; 49.5]%float, Arr2 2 2 [36; 216; 216; 1296]%float)
  /\ Spec.mean_over_samples 3 2 [1; 3; 3; 9; 8; 12]%float = [4; 8]%float.
Proof. repeat split; vm_compute; reflexivity. Qed.

(** Unlike the distance, the statistics depend on the state of the random
    generator. *)
Remark statistics_use_the_generator :
  fst (calculate_activation_statistics Ref.lib Demo.randn Demo.calc_z_shapes
         Demo.config3 Demo.loader3 Demo.reverse Demo.inception (mkWorld 0 []))
  <> fst (calculate_activation_statistics Ref.lib Demo.randn Demo.calc_z_shapes
            Demo.config3 Demo.loader3 Demo.reverse Demo.inception (mkWorld 5 [])).
Proof. vm_compute. discriminate. Qed.

(** ** Further runs on the concrete environment *)

(** X2 on covariances given as vectors of length two. *)
Lemma non_square_covariance_rejected_run :
  calculate_frechet_distance Ref.lib Demo.sqrtm
    (Arr0 1%float) (Arr1 [1; 2]%float) (Arr0 3%float) (Arr1 [3; 4]%float)
    eps_default Demo.w0
  = (Raise (ValueError (ShapesNotAligned [1; 2] [1; 2])), Demo.w0).
Proof.
  apply (@non_square_covariance_rejected nat Ref.lib Demo.sqrtm
           (Arr0 1%float) (Arr1 [1; 2]%float) (Arr0 3%float) (Arr1 [3; 4]%float)
           eps_default Demo.w0 1 2 [1; 2]%float [3; 4]%float);
    try reflexivity.
  discriminate.
Defined.


(** X5 on the images of [Demo.loader3] under two labellings. *)
Lemma labels_are_ignored_run :
  calculate_activation_statistics Ref.lib Demo.randn Demo.calc_z_shapes Demo.config3
    Demo.loader3 Demo.reverse Demo.inception Demo.w0
  = calculate_activation_statistics Ref.lib Demo.randn Demo.calc_z_shapes Demo.config3
      Demo.loader3_relabelled Demo.reverse Demo.inception Demo.w0
  /\ calculate_fid Ref.lib Demo.randn Demo.sqrtm Demo.calc_z_shapes Demo.config3
       Demo.loader3 Demo.reverse Demo.inception Demo.w0
     = calculate_fid Ref.lib Demo.randn Demo.sqrtm Demo.calc_z_shapes Demo.config3
         Demo.loader3_relabelled Demo.reverse Demo.inception Demo.w0.
Proof.
  apply (@labels_are_ignored nat Ref.lib Demo.randn Demo.sqrtm Demo.calc_z_shapes
           Demo.config3 Demo.reverse Demo.inception
           Demo.loader3 Demo.loader3_relabelled Demo.w0).
  reflexivity.
Defined.

Lemma stacked_run4 :
  stacked_features Ref.lib Demo.randn Demo.calc_z_shapes Demo.config2 Demo.loader4
                   Demo.reverse Demo.inception Demo.w0
  = (Ok (Arr2 2 4 [1; 3; 3; 8; 8; 21; 21; 55]%float,
         Arr2 2 2 [0; 15; 6; 51]%float),
     Demo.w_after4).
Proof. vm_compute. reflexivity. Defined.

Lemma stacked_run3 :
  stacked_features Ref.lib Demo.randn Demo.calc_z_shapes Demo.config3 Demo.loader3
                   Demo.reverse Demo.inception Demo.w0
  = (Ok (Arr2 3 2 [1; 3; 3; 9; 8; 12]%float,
         Arr2 3 2 [0; 15; 6; 51; 12; 87]%float),
     Demo.w_after3).
Proof. vm_compute. reflexivity. Defined.

Lemma statistics_run3 :
  calculate_activation_statistics Ref.lib Demo.randn Demo.calc_z_shapes Demo.config3
    Demo.loader3 Demo.reverse Demo.inception Demo.w0
  = (Ok (Arr1 [2; 6; 10]%float, Arr2 2 2 [13; 15; 15; 21]%float,
         Arr1 [7.5; 28.5; 49.5]%float, Arr2 2 2 [36; 216; 216; 1296]%float),
     Demo.w_after3).
Proof. vm_compute. reflexivity. Defined.

(** X7 with [batch = 2] and a batch of four images: four columns against
    two. *)
Lemma unequal_feature_widths_rejected_run :
  calculate_fid Ref.lib Demo.randn Demo.sqrtm Demo.calc_z_shapes Demo.config2
                Demo.loader4 Demo.reverse Demo.inception Demo.w0
  = (Raise (AssertionError
              "Training and test covariances have different dimensions"),
     Demo.w_after4).
Proof.
  apply (@unequal_feature_widths_rejected nat Ref.lib Demo.randn Demo.sqrtm
           Demo.calc_z_shapes Demo.config2 Demo.reverse Demo.inception
           Demo.loader4 Demo.w0 Demo.w_after4 _ _ _ _ _ _ stacked_run4).
  discriminate.
Defined.

(** X8 on the same run. *)
Lemma fid_assertion_is_about_covariances_run :
  "Training and test covariances have different dimensions"%string
  = "Training and test covariances have different dimensions"%string
  /\ exists r c1 c2 d1 d2 w',
       stacked_features Ref.lib Demo.randn Demo.calc_z_shapes Demo.config2 Demo.loader4
                        Demo.reverse Demo.inception Demo.w0
       = (Ok (Arr2 r c1 d1, Arr2 r c2 d2), w')
       /\ c1 <> c2.
Proof.
  apply (@fid_assertion_is_about_covariances nat Ref.lib Demo.randn Demo.sqrtm
           Demo.calc_z_shapes Demo.config2 Demo.reverse Demo.inception
           Demo.loader4 Demo.w0).
  vm_compute. reflexivity.
Defined.

(** X9 on the run with one batch of three images and one latent shape. *)
Lemma calls_per_run_run :
  exists events,
    trace Demo.w_after3 = trace Demo.w0 ++ events
    /\ count is_inception_call events = 2 * length Demo.loader3
    /\ count is_reverse_call events = length Demo.loader3
    /\ count is_randn_call events
       = length Demo.loader3
         * length (Demo.calc_z_shapes 3 (img_size Demo.config3)
                     (n_flow Demo.config3) (n_block Demo.config3))
    /\ count is_sqrtm_call events = 0.
Proof.
  exact (@calls_per_run nat Ref.lib Demo.randn Demo.calc_z_shapes Demo.config3
           Demo.reverse Demo.inception Demo.loader3 Demo.w0 Demo.w_after3 _
           statistics_run3).
Defined.

(** X10 on the same run: the distance comes out as not a number after a
    retry, and the generator is left at 18. *)
Lemma fid_events_run :
  rng (snd (calculate_fid Ref.lib Demo.randn Demo.sqrtm Demo.calc_z_shapes Demo.config3
              Demo.loader3 Demo.reverse Demo.inception Demo.w0))
  = snd (loader_events Ref.lib Demo.randn Demo.calc_z_shapes Demo.config3 Demo.reverse
           Demo.loader3 (rng Demo.w0))
  /\ exists P later,
       trace (snd (calculate_fid Ref.lib Demo.randn Demo.sqrtm Demo.calc_z_shapes
                     Demo.config3 Demo.loader3 Demo.reverse Demo.inception
                     Demo.w0))
       = trace Demo.w0
           ++ fst (loader_events Ref.lib Demo.randn Demo.calc_z_shapes Demo.config3
                     Demo.reverse Demo.loader3 (rng Demo.w0))
           ++ EvSqrtm P :: later
       /\ (later = []
           \/ exists P', later = [EvPrint (MsgSingular eps_default); EvSqrtm P']).
Proof.
  apply (@fid_events nat Ref.lib Demo.randn Demo.sqrtm Demo.calc_z_shapes Demo.config3
           Demo.reverse Demo.inception Demo.loader3 Demo.w0 _ nan).
  vm_compute. reflexivity.
Defined.

Lemma demo_inception_wf (y g : tensor) (gs : list tensor) :
  Demo.inception y = g :: gs -> torch.wf g.
Proof.
  unfold Demo.inception. intros H. injection H as <- _.
  unfold torch.wf. cbn [tdata tshape torch.numel fold_right].
  generalize (hd 0 (tshape y)) as b. intros b.
  assert (E : forall a n,
            length (flat_map
                      (fun i =>
                         [hd PrimFloat.zero
                             (firstn (torch.numel (tl (tshape y)))
                                     (skipn (i * torch.numel (tl (tshape y)))
                                            (tdata y)));
                          F.sum (firstn (torch.numel (tl (tshape y)))
                                        (skipn (i * torch.numel (tl (tshape y)))
                                               (tdata y)))])
                      (seq a n))
            = n * 2).
  { intros a n; revert a. induction n as [|n IH]; intros a; [reflexivity|].
    cbn [seq flat_map]. rewrite length_app, IH. simpl. lia. }
  rewrite E. lia.
Qed.

(** X11 on the run with one batch of three images. *)
Lemma stacked_arrays_well_formed_run :
  np.wf (Arr2 3 2 [1; 3; 3; 9; 8; 12]%float)
  /\ np.wf (Arr2 3 2 [0; 15; 6; 51; 12; 87]%float).
Proof.
  exact (@stacked_arrays_well_formed nat Ref.lib Demo.randn Demo.calc_z_shapes
           Demo.config3 Demo.reverse Demo.inception Demo.loader3
           Demo.w0 Demo.w_after3 _ _ demo_inception_wf stacked_run3).
Defined.

(** X12 on the two batches of [Demo.loader6]: six feature entries each. *)
Lemma batches_yield_equal_entries_run :
  feature_entries Demo.inception Demo.images3a
  = feature_entries Demo.inception Demo.images3b
  /\ feature_entries Demo.inception Demo.images3a mod batch Demo.config3 = 0.
Proof.
  assert (H : exists stats w',
            calculate_activation_statistics Ref.lib Demo.randn Demo.calc_z_shapes
              Demo.config3 Demo.loader6 Demo.reverse Demo.inception Demo.w0
            = (Ok stats, w')).
  { eexists _, _. vm_compute. reflexivity. }
  destruct H as (stats & w' & H).
  apply (@batches_yield_equal_entries nat Ref.lib Demo.randn Demo.calc_z_shapes
           Demo.config3 Demo.reverse Demo.inception Demo.loader6 Demo.w0
           w' stats H
           (Demo.images3a, Tensor [3] [0; 0; 0]%float)
           (Demo.images3b, Tensor [3] [1; 1; 1]%float)).
  - left. reflexivity.
  - right. left. reflexivity.
Defined.

(** X13 on the run with one batch of three images. *)
Lemma statistics_shapes_run :
  exists true_data ae_data c1 c2,
    stacked_features Ref.lib Demo.randn Demo.calc_z_shapes Demo.config3 Demo.loader3
                     Demo.reverse Demo.inception Demo.w0
    = (Ok (true_data, ae_data), Demo.w_after3)
    /\ np.shape true_data = [batch Demo.config3 * length Demo.loader3; c1]
    /\ np.shape ae_data = [batch Demo.config3 * length Demo.loader3; c2]
    /\ np.shape (Arr1 [2; 6; 10]%float)
       = [batch Demo.config3 * length Demo.loader3]
    /\ np.shape (Arr1 [7.5; 28.5; 49.5]%float)
       = [batch Demo.config3 * length Demo.loader3]
    /\ np.shape (np.atleast_2d (Arr2 2 2 [13; 15; 15; 21]%float)) = [c1; c1]
    /\ np.shape (np.atleast_2d (Arr2 2 2 [36; 216; 216; 1296]%float)) = [c2; c2].
Proof.
  exact (@statistics_shapes nat Ref.lib Demo.randn Demo.calc_z_shapes Demo.config3
           Demo.reverse Demo.inception Demo.loader3 Demo.w0 Demo.w_after3
           _ _ _ _ statistics_run3).
Defined.

(** X14 on means given as rows of two entries. *)
Lemma matrix_means_rejected_late_run :
  calculate_frechet_distance Ref.lib Demo.sqrtm
    (Arr2 1 2 [1; 2]%float) (Arr2 2 2 [4; 0; 0; 9]%float)
    (Arr2 1 2 [0; 0]%float) (Arr2 2 2 [1; 0; 0; 1]%float) eps_default Demo.w0
  = (Raise (ValueError (ShapesNotAligned [1; 2] [1; 2])),
     after Demo.w0 [EvSqrtm (Arr2 2 2 [4; 0; 0; 9]%float)]).
Proof.
  apply (@matrix_means_rejected_late nat Ref.lib Demo.sqrtm
           (Arr2 1 2 [1; 2]%float) (Arr2 2 2 [4; 0; 0; 9]%float)
           (Arr2 1 2 [0; 0]%float) (Arr2 2 2 [1; 0; 0; 1]%float)
           eps_default Demo.w0 1 2 [1; 2]%float [0; 0]%float
           2 [4; 0; 0; 9]%float [1; 0; 0; 1]%float
           (RealArr (Arr2 2 2 [2; 0; 0; 3]%float)));
    try reflexivity.
  - discriminate.
  - intros z Hz. discriminate Hz.
Defined.

